(** * kuha: an OAI-PMH repository -- request handling and harvest synchronisation

    A shallow embedding of [kuha/exception.py] and [kuha/oai/views.py], with
    the helpers of [kuha/util.py] and the harvest engine of
    [kuha/importer/harvest.py] modelled from their specification, and the
    properties of the repository's specification stated over it. *)

From Stdlib Require Import ZArith Lia Ascii String.
From stdpp Require Import base option list strings gmap sorting.

Set Warnings "-register-all".

(** ** Python values and control flow *)

(** A Python [str] is a [string]; one character stands for one code point
    below 256.  An optional argument ([None] in Python) is an [option]. *)
Definition py_str (v : option string) : string :=
  match v with
  | Some s => s
  | None => "None"
  end.

(** Built-in exceptions this code can meet. *)
Inductive PyError :=
  | KeyError | ValueError | TypeError | IndexError | AssertionError.

#[global] Instance PyError_eq_dec : EqDecision PyError.
Proof. solve_decision. Defined.

(** ** exception.py: the OAI-PMH error taxonomy *)

(** One constructor per concrete class; a class whose [__init__] stores
    [self._message] carries that string. *)
Inductive OaiException :=
  | BadArgument (_message : string)
  | InvalidResumptionToken
  | ExpiredResumptionToken
  | InvalidVerb
  | RepeatedVerb
  | MissingVerb
  | UnsupportedMetadataFormat (_message : string)
  | UnavailableMetadataFormat (_message : string)
  | IdDoesNotExist (_message : string)
  | NoRecordsMatch
  | NoMetadataFormats (_message : string)
  | NoSetHierarchy.

#[global] Instance OaiException_eq_dec : EqDecision OaiException.
Proof. solve_decision. Defined.

Definition code (e : OaiException) : string :=
  match e with
  | BadArgument _ => "badArgument"
  | InvalidResumptionToken | ExpiredResumptionToken => "badResumptionToken"
  | InvalidVerb | RepeatedVerb | MissingVerb => "badVerb"
  | UnsupportedMetadataFormat _ | UnavailableMetadataFormat _ =>
      "cannotDisseminateFormat"
  | IdDoesNotExist _ => "idDoesNotExist"
  | NoRecordsMatch => "noRecordsMatch"
  | NoMetadataFormats _ => "noMetadataFormats"
  | NoSetHierarchy => "noSetHierarchy"
  end.

Definition message (e : OaiException) : string :=
  match e with
  | BadArgument m => m
  | InvalidResumptionToken => "Invalid resumption token"
  | ExpiredResumptionToken => "Resumption token has expired."
  | InvalidVerb => "Invalid verb"
  | RepeatedVerb => "Repeated verb"
  | MissingVerb => "Missing verb"
  | UnsupportedMetadataFormat m => m
  | UnavailableMetadataFormat m => m
  | IdDoesNotExist m => m
  | NoRecordsMatch => "No matching records found."
  | NoMetadataFormats m => m
  | NoSetHierarchy => "This repository does not support sets."
  end.

(** Whatever a call can raise: an OAI-PMH error or a built-in exception. *)
Inductive exn :=
  | Oai (e : OaiException)
  | Py (e : PyError).

#[global] Instance exn_eq_dec : EqDecision exn.
Proof. solve_decision. Defined.

Inductive result (A : Type) :=
  | Ok (a : A)
  | Raise (e : exn).
Arguments Ok {A} a.
Arguments Raise {A} e.

Definition bind {A B} (m : result A) (k : A → result B) : result B :=
  match m with
  | Ok a => k a
  | Raise e => Raise e
  end.

Notation "x ←! m ; k" := (bind m (λ x, k))
  (at level 100, m at next level, right associativity,
   format "x  ←!  m ;  '/' k").
Notation "m ;;! k" := (bind m (λ _, k))
  (at level 100, right associativity, format "m  ;;!  '/' k").

Definition raise {A} (e : OaiException) : result A := Raise (Oai e).

(** [try: ... except: raise e] -- a bare [except] catches everything. *)
Definition except_all {A} (m : result A) (e : OaiException) : result A :=
  match m with
  | Ok a => Ok a
  | Raise _ => raise e
  end.

(** ** Characters and strings *)

Definition ord (c : ascii) : nat := nat_of_ascii c.

Definition is_digit (c : ascii) : bool := (48 <=? ord c) && (ord c <=? 57).

Definition digit_value (c : ascii) : nat := nat_of_ascii c - 48.

Fixpoint existsb_string (p : ascii → bool) (s : string) : bool :=
  match s with
  | EmptyString => false
  | String c s' => p c || existsb_string p s'
  end.

Fixpoint filter_string (p : ascii → bool) (s : string) : string :=
  match s with
  | EmptyString => EmptyString
  | String c s' => if p c then String c (filter_string p s') else filter_string p s'
  end.

(** The double quote, as a one-character string. *)
Definition dq : string := String (ascii_of_nat 34) EmptyString.

(** *** str.format *)

(** Python's [str.format] on positional arguments, for the templates of this
    code base:
    literal text, the doubled braces and positional fields such as
    [{0}].  A malformed template or an index out of range raises. *)
Inductive FormatState :=
  | FText
  | FOpen
  | FField (index : nat)
  | FClose.

Fixpoint format_from (st : FormatState) (template : string)
    (args : list string) : result string :=
  match template with
  | EmptyString =>
      match st with
      | FText => Ok EmptyString
      | _ => Raise (Py ValueError)
      end
  | String c rest =>
      match st with
      | FText =>
          if Ascii.eqb c "{" then format_from FOpen rest args
          else if Ascii.eqb c "}" then format_from FClose rest args
          else s ←! format_from FText rest args; Ok (String c s)
      | FOpen =>
          if Ascii.eqb c "{" then
            s ←! format_from FText rest args; Ok (String c s)
          else if is_digit c then format_from (FField (digit_value c)) rest args
          else Raise (Py ValueError)
      | FField n =>
          if Ascii.eqb c "}" then
            match args !! n with
            | Some a => s ←! format_from FText rest args; Ok (a +:+ s)
            | None => Raise (Py IndexError)
            end
          else if is_digit c then
            format_from (FField (10 * n + digit_value c)%nat) rest args
          else Raise (Py ValueError)
      | FClose =>
          if Ascii.eqb c "}" then
            s ←! format_from FText rest args; Ok (String c s)
          else Raise (Py ValueError)
      end
  end.

Definition str_format (template : string) (args : list (option string))
    : result string :=
  format_from FText template (py_str <$> args).

(** *** The printf-style [%] operator with one string argument *)

(** [template % arg] where [arg] is a [str]: the single [%s] is replaced by
    it and [%%] stands for a percent sign.  Any other conversion, or a number
    of [%s] other than one, raises. *)
Fixpoint percent_from (pending : option string) (template : string)
    : result string :=
  match template with
  | EmptyString =>
      match pending with
      | None => Ok EmptyString
      | Some _ => Raise (Py TypeError)
      end
  | String c rest =>
      if Ascii.eqb c "%" then
        match rest with
        | String c' rest' =>
            if Ascii.eqb c' "s" then
              match pending with
              | Some arg => s ←! percent_from None rest'; Ok (arg +:+ s)
              | None => Raise (Py TypeError)
              end
            else if Ascii.eqb c' "%" then
              s ←! percent_from pending rest'; Ok (String c' s)
            else Raise (Py ValueError)
        | EmptyString => Raise (Py ValueError)
        end
      else s ←! percent_from pending rest; Ok (String c s)
  end.

Definition str_percent (template arg : string) : result string :=
  percent_from (Some arg) template.

(** ** Datestamps *)

(** A [datetime.time] and a [datetime.datetime], at the resolution of a
    second. *)
Record timeofday := mk_time { t_hour : nat; t_minute : nat; t_second : nat }.

Record datetime := mk_datetime {
  year : nat; month : nat; day : nat;
  hour : nat; minute : nat; second : nat
}.

#[global] Instance timeofday_eq_dec : EqDecision timeofday.
Proof. solve_decision. Defined.
#[global] Instance datetime_eq_dec : EqDecision datetime.
Proof. solve_decision. Defined.

Definition combine (y m d : nat) (t : timeofday) : datetime :=
  mk_datetime y m d (t_hour t) (t_minute t) (t_second t).

(** Python compares two datetimes field by field, the year first. *)
Definition lex (c1 c2 : comparison) : comparison :=
  match c1 with
  | Eq => c2
  | _ => c1
  end.

Definition datetime_compare (a b : datetime) : comparison :=
  lex (year a ?= year b)%nat
 (lex (month a ?= month b)%nat
 (lex (day a ?= day b)%nat
 (lex (hour a ?= hour b)%nat
 (lex (minute a ?= minute b)%nat
      (second a ?= second b)%nat)))).

(** [a > b] and [a >= b] on datetimes. *)
Definition datetime_gtb (a b : datetime) : bool :=
  match datetime_compare a b with
  | Gt => true
  | _ => false
  end.

Definition datetime_geb (a b : datetime) : bool :=
  match datetime_compare a b with
  | Lt => false
  | _ => true
  end.

Definition is_leap (y : nat) : bool :=
  ((y mod 4 =? 0) && negb (y mod 100 =? 0) || (y mod 400 =? 0))%nat.

Definition days_in_month (y m : nat) : nat :=
  match m with
  | 1 | 3 | 5 | 7 | 8 | 10 | 12 => 31
  | 4 | 6 | 9 | 11 => 30
  | 2 => if is_leap y then 29 else 28
  | _ => 0
  end.

Definition valid_date (y m d : nat) : bool :=
  ((1 <=? y) && (y <? 100 * 100) && (1 <=? m) && (m <=? 12) &&
   (1 <=? d) && (d <=? days_in_month y m))%nat.

Definition valid_time (t : timeofday) : bool :=
  ((t_hour t <=? 23) && (t_minute t <=? 59) && (t_second t <=? 59))%nat.

Definition valid_datetime (d : datetime) : bool :=
  valid_date (year d) (month d) (day d) &&
  valid_time (mk_time (hour d) (minute d) (second d)).

(** The two granularities of OAI-PMH: [YYYY-MM-DD] and
    [YYYY-MM-DDThh:mm:ssZ]. *)
Inductive granularity := DayGranularity | SecondGranularity.

#[global] Instance granularity_eq_dec : EqDecision granularity.
Proof. solve_decision. Defined.

Definition digit_char (n : nat) : ascii := ascii_of_nat (48 + n mod 10).

Definition pad2 (n : nat) : list ascii :=
  [digit_char (n / 10); digit_char n].

Definition pad4 (n : nat) : list ascii :=
  [digit_char (n / 1000); digit_char (n / 100); digit_char (n / 10);
   digit_char n].

Fixpoint read_digits (acc : nat) (cs : list ascii) : option nat :=
  match cs with
  | [] => Some acc
  | c :: cs' =>
      if is_digit c then read_digits (10 * acc + digit_value c) cs' else None
  end.

Definition read_number (cs : list ascii) : option nat := read_digits 0 cs.

(** ** util.py *)

Module util.

(** Modelled from the spec: [kuha/util.py] is not among the sources.  The
    spec speaks of "illegal control characters"; these are the control
    characters that an XML 1.0 document cannot hold, that is every code
    point below 32 apart from tab, line feed and carriage return. *)
Definition is_illegal_char (c : ascii) : bool :=
  (ord c <? 32) && negb ((ord c =? 9) || (ord c =? 10) || (ord c =? 13)).

(** Modelled from the spec: [util.contains_illegal_chars], absent from the
    sources; true when the value holds an illegal control character. *)
Definition contains_illegal_chars (s : string) : bool :=
  existsb_string is_illegal_char s.

(** Modelled from the spec: [util.filter_illegal_chars], absent from the
    sources; the string without its illegal control characters. *)
Definition filter_illegal_chars (s : string) : string :=
  filter_string (λ c, negb (is_illegal_char c)) s.

(** Modelled from the spec: [util.parse_date], absent from the sources.  The
    spec: "parse an OAI-PMH date string at either day granularity
    ([YYYY-MM-DD]) or second granularity ([YYYY-MM-DDThh:mm:ssZ]); return the
    parsed instant plus which granularity was used"; a day-granularity string
    takes its time of day from [default_time].  Anything else raises
    [ValueError]. *)
Definition parse_date (s : string) (default_time : timeofday)
    : result (datetime * granularity) :=
  match list_ascii_of_string s with
  | [y1; y2; y3; y4; s1; m1; m2; s2; d1; d2] =>
      match read_number [y1; y2; y3; y4], read_number [m1; m2],
            read_number [d1; d2] with
      | Some y, Some m, Some d =>
          if Ascii.eqb s1 "-" && Ascii.eqb s2 "-" && valid_date y m d
          then Ok (combine y m d default_time, DayGranularity)
          else Raise (Py ValueError)
      | _, _, _ => Raise (Py ValueError)
      end
  | [y1; y2; y3; y4; s1; m1; m2; s2; d1; d2; s3; h1; h2; s4; i1; i2; s5;
     c1; c2; s6] =>
      match read_number [y1; y2; y3; y4], read_number [m1; m2],
            read_number [d1; d2], read_number [h1; h2],
            read_number [i1; i2], read_number [c1; c2] with
      | Some y, Some m, Some d, Some h, Some i, Some c =>
          if Ascii.eqb s1 "-" && Ascii.eqb s2 "-" && Ascii.eqb s3 "T" &&
             Ascii.eqb s4 ":" && Ascii.eqb s5 ":" && Ascii.eqb s6 "Z" &&
             valid_date y m d && valid_time (mk_time h i c)
          then Ok (mk_datetime y m d h i c, SecondGranularity)
          else Raise (Py ValueError)
      | _, _, _, _, _, _ => Raise (Py ValueError)
      end
  | _ => Raise (Py ValueError)
  end.

(** Modelled from the spec: the default of [parse_date]'s [default_time]
    argument, the start of the day. *)
Definition midnight : timeofday := mk_time 0 0 0.

(** Modelled from the spec: [util.format_datestamp], absent from the
    sources; the datestamp at second granularity. *)
Definition format_datestamp (d : datetime) : string :=
  string_of_list_ascii
    (pad4 (year d) ++ ["-"%char] ++ pad2 (month d) ++ ["-"%char] ++
     pad2 (day d) ++ ["T"%char] ++ pad2 (hour d) ++ [":"%char] ++
     pad2 (minute d) ++ [":"%char] ++ pad2 (second d) ++ ["Z"%char]).

End util.

(** ** exception.py: the constructors *)

Definition new_BadArgument (message : string) : OaiException :=
  BadArgument (util.filter_illegal_chars message).

Definition new_UnsupportedMetadataFormat (prefix : option string)
    : result OaiException :=
  m ←! str_format ("Metadata format " +:+ dq +:+ "{0}" +:+ dq +:+
                   " is not supported by this repository.")
         [prefix];
  Ok (UnsupportedMetadataFormat (util.filter_illegal_chars m)).

Definition new_UnavailableMetadataFormat (prefix identifier : option string)
    : result OaiException :=
  m ←! str_format ("Metadata format " +:+ dq +:+ "{0}" +:+ dq +:+
                   " is not available for item " +:+ dq +:+ "{1}" +:+ dq +:+ ".")
         [prefix; identifier];
  Ok (UnavailableMetadataFormat (util.filter_illegal_chars m)).

Definition new_IdDoesNotExist (identifier : option string)
    : result OaiException :=
  m ←! str_format ("Identifier " +:+ dq +:+ "{0}" +:+ dq +:+ " does not exist.")
         [identifier];
  Ok (IdDoesNotExist (util.filter_illegal_chars m)).

Definition new_NoMetadataFormats (identifier : option string)
    : result OaiException :=
  m ←! str_format ("No metadata formats available for item " +:+ dq +:+ "%s" +:+
                   dq +:+ ".")
         [identifier];
  Ok (NoMetadataFormats (util.filter_illegal_chars m)).


(** ** Request parameters *)

(** The views read their arguments from [request.params], a multidict (a
    sequence of pairs in which a name may come more than once), or from a
    parsed resumption token, a plain [dict] whose values are strings or
    [None]. *)
Inductive Params :=
  | MultiDict (items : list (string * string))
  | Dict (items : list (string * option string)).

(** [for name in params] *)
Definition keys (p : Params) : list string :=
  match p with
  | MultiDict items => fst <$> items
  | Dict items => fst <$> items
  end.

(** [name in params] *)
Definition contains (name : string) (p : Params) : bool :=
  bool_decide (name ∈ keys p).

(** [hasattr(params, 'getall')] *)
Definition has_getall (p : Params) : bool :=
  match p with
  | MultiDict _ => true
  | Dict _ => false
  end.

(** [params.getall(name)], on a multidict. *)
Definition getall (name : string) (p : Params) : list string :=
  match p with
  | MultiDict items => snd <$> filter (λ kv, kv.1 = name) items
  | Dict _ => []
  end.

(** The value a plain [dict] holds for a key. *)
Fixpoint dict_lookup {V} (name : string) (items : list (string * V))
    : option V :=
  match items with
  | [] => None
  | (k, v) :: rest => if decide (k = name) then Some v else dict_lookup name rest
  end.

(** [params[name]]: a multidict gives the last value of the name, as webob's
    does; a missing name raises [KeyError]. *)
Definition getitem (name : string) (p : Params) : result (option string) :=
  match p with
  | MultiDict items =>
      match last (getall name p) with
      | Some v => Ok (Some v)
      | None => Raise (Py KeyError)
      end
  | Dict items =>
      match dict_lookup name items with
      | Some v => Ok v
      | None => Raise (Py KeyError)
      end
  end.

(** [params.get(name)], [None] when the name is missing. *)
Definition get (name : string) (p : Params) : option string :=
  match getitem name p with
  | Ok v => v
  | Raise _ => None
  end.

(** ** Python's json module, as the views see it *)

Inductive json :=
  | JNull
  | JBool (b : bool)
  | JNumber (literal : string)
  | JString (s : string)
  | JArray (l : list json)
  | JObject (d : list (string * json)).

Definition json_of_value (v : option string) : json :=
  match v with
  | Some s => JString s
  | None => JNull
  end.

Definition json_of_dict (d : list (string * option string)) : json :=
  JObject (prod_map id json_of_value <$> d).

(** ** models: what the views read from the store *)

Record Format := mk_format {
  prefix : string; namespace : string; schema : string
}.

Record Set_ := mk_set { spec : string; name : string }.

Record Record_ := mk_record {
  identifier : string;
  metadata_prefix : string;
  datestamp : datetime;
  deleted : bool
}.

(** The keyword arguments of [Record.list]. *)
Record RecordQuery := mk_query {
  q_identifier : option string;
  q_metadata_prefix : option string;
  q_from_date : option datetime;
  q_until_date : option datetime;
  q_set : option string;
  q_ignore_deleted : bool;
  q_offset : option string;
  q_limit : option Z
}.

(** The state of the store, given by the answers to the queries of the
    views ([kuha/models.py] is not among the sources; the views only rely on
    these signatures). *)
Record models := mk_models {
  Item_exists : option string → bool → bool;
  Format_exists : option string → bool → bool;
  Format_list : option string → bool → list Format;
  Record_list : RecordQuery → list Record_;
  Set_list : list Set_;
  Datestamp_get : option datetime
}.

(** [request]: the parameters, the time the request came in, and the two
    settings the views read. *)
Record Request := mk_request {
  params : list (string * string);
  time : datetime;
  deleted_records : string;
  item_list_limit : Z
}.

(** The rendering context of ListIdentifiers and ListRecords. *)
Record ListItems := mk_list_items {
  records : list Record_;
  token : option string
}.

(** ** oai/views.py *)

Section views.

(** [json.dumps] and [json.loads] of Python's standard library. *)
Variable json_dumps : json → string.
Variable json_loads : string → result json.

(** ['... "%s"' % name], then [raise exception.BadArgument(...)]. *)
Definition raise_BadArgument {A} (template : string) (name : string)
    : result A :=
  m ←! str_percent (template +:+ dq +:+ "%s" +:+ dq) name;
  raise (new_BadArgument m).

(** The loop [for name in params] of [_check_params]. *)
Fixpoint check_names (p : Params) (required allowed : list string)
    (names : list string) : result unit :=
  match names with
  | [] => Ok ()
  | name :: rest =>
      let is_expected :=
        bool_decide (name = "verb") ||
        bool_decide (name ∈ allowed) ||
        bool_decide (name ∈ required) in
      if negb is_expected then raise_BadArgument "Illegal argument: " name
      else
        let is_repeated :=
          has_getall p && bool_decide (1 < length (getall name p))%nat in
        if is_repeated then raise_BadArgument "Repeated argument: " name
        else
          match get name p with
          | Some value =>
              if util.contains_illegal_chars value
              then raise_BadArgument "Invalid argument: " name
              else check_names p required allowed rest
          | None => check_names p required allowed rest
          end
  end.

(** The loop [for p in required] of [_check_params]. *)
Fixpoint check_required (p : Params) (required : list string) : result unit :=
  match required with
  | [] => Ok ()
  | name :: rest =>
      if negb (contains name p) then raise_BadArgument "Missing argument: " name
      else check_required p rest
  end.

Definition _check_params (p : Params) (required allowed : list string)
    : result unit :=
  if negb (contains "verb" p) then raise MissingVerb
  else if has_getall p && bool_decide (1 < length (getall "verb" p))%nat
  then raise RepeatedVerb
  else
    check_names p required allowed (keys p) ;;!
    check_required p required.

Definition _check_resumption_token_date (m : models)
    (token : list (string * option string)) : result unit :=
  date ←! except_all
            (v ←! getitem "date" (Dict token);
             match v with
             | Some s => r ←! util.parse_date s util.midnight; Ok r.1
             | None => Raise (Py TypeError)
             end)
            InvalidResumptionToken;
  match Datestamp_get m with
  | Some latest =>
      if datetime_geb latest date then raise ExpiredResumptionToken else Ok ()
  | None => Ok ()
  end.

(** The loop [for k, v in parsed.items()] of [_get_resumption_token]: every
    value is [None] or a [str]. *)
Fixpoint check_types (d : list (string * json))
    : result (list (string * option string)) :=
  match d with
  | [] => Ok []
  | (k, v) :: rest =>
      match v with
      | JNull => rest' ←! check_types rest; Ok ((k, None) :: rest')
      | JString s => rest' ←! check_types rest; Ok ((k, Some s) :: rest')
      | _ => raise InvalidResumptionToken
      end
  end.

Definition _get_resumption_token (m : models) (request : Request)
    : result (option (list (string * option string))) :=
  let request_params := MultiDict (params request) in
  if negb (contains "resumptionToken" request_params) then Ok None
  else
    _check_params request_params ["resumptionToken"] [] ;;!
    parsed ←! except_all
                (v ←! getitem "resumptionToken" request_params;
                 json_loads (py_str v))
                InvalidResumptionToken;
    match parsed with
    | JObject d =>
        parsed ←! check_types d;
        verb ←! getitem "verb" request_params;
        if bool_decide (mjoin (dict_lookup "verb" parsed) = verb) then
          _check_resumption_token_date m parsed ;;!
          Ok (Some parsed)
        else raise InvalidResumptionToken
    | _ => raise InvalidResumptionToken
    end.

Definition _get_ignore_deleted (request : Request) : bool :=
  bool_decide (deleted_records request = "no").

Definition _get_metadata_prefix (m : models) (p : Params)
    (ignore_deleted : bool) : result (option string) :=
  prefix ←! getitem "metadataPrefix" p;
  if negb (Format_exists m prefix ignore_deleted) then
    e ←! new_UnsupportedMetadataFormat prefix; raise e
  else Ok prefix.

Definition _get_identifier (m : models) (p : Params) (ignore_deleted : bool)
    : result (option string) :=
  if negb (contains "identifier" p) then Ok None
  else
    identifier ←! getitem "identifier" p;
    if negb (Item_exists m identifier ignore_deleted) then
      e ←! new_IdDoesNotExist identifier; raise e
    else Ok identifier.

(** [try: parse_date(...) except ValueError: raise BadArgument(message)] *)
Definition parse_or_BadArgument (s : string) (default_time : timeofday)
    (message : string) : result (datetime * granularity) :=
  match util.parse_date s default_time with
  | Raise (Py ValueError) => raise (new_BadArgument message)
  | r => r
  end.

Definition _parse_from_and_until (from_date_str until_date_str : option string)
    : result (option datetime * option datetime) :=
  from ←! match from_date_str with
          | Some s =>
              r ←! parse_or_BadArgument s util.midnight
                     ("Illegal " +:+ dq +:+ "from" +:+ dq +:+ " datestamp");
              Ok (Some r.1, Some r.2)
          | None => Ok (None, None)
          end;
  until ←! match until_date_str with
           | Some s =>
               r ←! parse_or_BadArgument s (mk_time 23 59 59)
                      ("Illegal " +:+ dq +:+ "until" +:+ dq +:+ " datestamp");
               Ok (Some r.1, Some r.2)
           | None => Ok (None, None)
           end;
  let '(from_date, from_granularity) := from in
  let '(until_date, until_granularity) := until in
  match from_date, until_date with
  | Some f, Some u =>
      if negb (bool_decide (from_granularity = until_granularity)) then
        raise (new_BadArgument
                 ("Datestamps " +:+ dq +:+ "from" +:+ dq +:+ " and " +:+ dq +:+
                  "until" +:+ dq +:+ " have different granularity"))
      else if datetime_gtb f u then
        raise (new_BadArgument
                 ("Datestamp " +:+ dq +:+ "from" +:+ dq +:+
                  " is greater than " +:+ dq +:+ "until" +:+ dq))
      else Ok (from_date, until_date)
  | _, _ => Ok (from_date, until_date)
  end.

Definition _get_records (m : models) (p : Params) (ignore_deleted : bool)
    (limit : Z) : result (list Record_ * option string) :=
  prefix ←! _get_metadata_prefix m p ignore_deleted;
  dates ←! _parse_from_and_until (get "from" p) (get "until" p);
  if bool_decide (get "set" p ≠ None) &&
     bool_decide (length (Set_list m) = 0%nat)
  then raise NoSetHierarchy
  else
    let records :=
      Record_list m
        {| q_identifier := None;
           q_metadata_prefix := prefix;
           q_from_date := dates.1;
           q_until_date := dates.2;
           q_set := get "set" p;
           q_ignore_deleted := ignore_deleted;
           q_offset := get "offset" p;
           (* one extra record tells whether there are records left *)
           q_limit := Some (limit + 1)%Z |} in
    match last records with
    | None => raise NoRecordsMatch
    | Some next =>
        if bool_decide (Z.of_nat (length records) = limit + 1)%Z
        then Ok (removelast records, Some (identifier next))
        else Ok (records, None)
    end.

Definition _create_resumption_token (p : Params) (offset : string)
    (time : datetime) : result string :=
  verb ←! getitem "verb" p;
  metadataPrefix ←! getitem "metadataPrefix" p;
  Ok (json_dumps (json_of_dict
        [("verb", verb);
         ("metadataPrefix", metadataPrefix);
         ("offset", Some offset);
         ("date", Some (util.format_datestamp time));
         ("from", get "from" p);
         ("until", get "until" p);
         ("set", get "set" p)])).

Definition handle_list_items (m : models) (request : Request)
    : result ListItems :=
  let limit := item_list_limit request in
  token_params ←! _get_resumption_token m request;
  let has_token := bool_decide (token_params ≠ None) in
  let p :=
    match token_params with
    | Some (kv :: d) => Dict (kv :: d)
    | _ => MultiDict (params request)
    end in
  let required :=
    if has_token
    then ["metadataPrefix"; "offset"; "date"; "from"; "until"; "set"]
    else ["metadataPrefix"] in
  let allowed := if has_token then [] else ["from"; "until"; "set"] in
  let fetched :=
    _check_params p required allowed ;;!
    _get_records m p (_get_ignore_deleted request) limit in
  match fetched with
  | Raise (Oai e) =>
      (* the parameters were parsed from the token *)
      if has_token then raise InvalidResumptionToken else Raise (Oai e)
  | Raise (Py e) => Raise (Py e)
  | Ok (records, next_offset) =>
      new_token ←!
        match next_offset with
        | Some offset =>
            t ←! _create_resumption_token p offset (time request); Ok (Some t)
        | None => if has_token then Ok (Some "") else Ok None
        end;
      Ok {| records := records; token := new_token |}
  end.

Definition handle_list_sets (m : models) (request : Request)
    : result (list Set_) :=
  match _get_resumption_token m request with
  | Ok (Some (_ :: _)) =>
      (* resumption tokens are not used for ListSets *)
      raise InvalidResumptionToken
  | Raise (Oai ExpiredResumptionToken) => raise InvalidResumptionToken
  | Raise e => Raise e
  | Ok _ =>
      _check_params (MultiDict (params request)) [] [] ;;!
      let sets := Set_list m in
      if bool_decide (length sets = 0%nat) then raise NoSetHierarchy
      else Ok sets
  end.

Definition handle_list_metadata_formats (m : models) (request : Request)
    : result (list Format) :=
  let p := MultiDict (params request) in
  _check_params p [] ["identifier"] ;;!
  let ignore_deleted := _get_ignore_deleted request in
  identifier ←! _get_identifier m p ignore_deleted;
  let formats := Format_list m identifier ignore_deleted in
  if bool_decide (identifier ≠ None) && bool_decide (formats = []) then
    e ←! new_NoMetadataFormats identifier; raise e
  else if bool_decide (formats = []) then Raise (Py AssertionError)
  else Ok formats.

Definition handle_get_record (m : models) (request : Request)
    : result Record_ :=
  let p := MultiDict (params request) in
  _check_params p ["identifier"; "metadataPrefix"] [] ;;!
  let ignore_deleted := _get_ignore_deleted request in
  identifier ←! _get_identifier m p ignore_deleted;
  prefix ←! _get_metadata_prefix m p ignore_deleted;
  let records :=
    Record_list m
      {| q_identifier := identifier;
         q_metadata_prefix := prefix;
         q_from_date := None;
         q_until_date := None;
         q_set := None;
         q_ignore_deleted := ignore_deleted;
         q_offset := None;
         q_limit := None |} in
  match records with
  | [] => e ←! new_UnavailableMetadataFormat prefix identifier; raise e
  | [record] => Ok record
  | _ => Raise (Py AssertionError)
  end.

End views.

(** ** A JSON codec

    The views are run on concrete requests with this codec.  It writes what
    Python's [json.dumps] writes (default separators, [ensure_ascii]) and
    reads what [json.loads] reads, for documents whose strings stay within
    [string], that is, below code point 256, and that nest no deeper than
    the interpreter's recursion limit.  [json.loads] also decodes an
    escape that denotes a code point of 256 or more; such a character has no
    counterpart in [string], and this decoder raises [ValueError] there.
    The general properties of the views are therefore stated for any
    [json_dumps] and [json_loads], not for this codec. *)

Module pyjson.

Definition hex_digit (n : nat) : ascii :=
  if (n mod 16 <? 10)%nat then ascii_of_nat (48 + n mod 16)
  else ascii_of_nat (87 + n mod 16).

Definition hex_value (c : ascii) : option nat :=
  let n := ord c in
  if (48 <=? n)%nat && (n <=? 57)%nat then Some (n - 48)%nat
  else if (97 <=? n)%nat && (n <=? 102)%nat then Some (n - 87)%nat
  else if (65 <=? n)%nat && (n <=? 70)%nat then Some (n - 55)%nat
  else None.

Definition bs : ascii := ascii_of_nat 92.
Definition quote : ascii := ascii_of_nat 34.

(** One character of a string literal, as [ensure_ascii] writes it. *)
Definition escape_char (c : ascii) : list ascii :=
  let n := ord c in
  if Ascii.eqb c quote then [bs; quote]
  else if Ascii.eqb c bs then [bs; bs]
  else if (n =? 10)%nat then [bs; "n"%char]
  else if (n =? 13)%nat then [bs; "r"%char]
  else if (n =? 9)%nat then [bs; "t"%char]
  else if (n =? 8)%nat then [bs; "b"%char]
  else if (n =? 12)%nat then [bs; "f"%char]
  else if (32 <=? n)%nat && (n <=? 126)%nat then [c]
  else [bs; "u"%char; "0"%char; "0"%char; hex_digit (n / 16); hex_digit n].

Fixpoint escape (s : string) : list ascii :=
  match s with
  | EmptyString => []
  | String c s' => escape_char c ++ escape s'
  end.

Definition dumps_string (s : string) : list ascii :=
  [quote] ++ escape s ++ [quote].

Fixpoint dumps_chars (v : json) : list ascii :=
  match v with
  | JNull => list_ascii_of_string "null"
  | JBool true => list_ascii_of_string "true"
  | JBool false => list_ascii_of_string "false"
  | JNumber literal => list_ascii_of_string literal
  | JString s => dumps_string s
  | JArray l =>
      ["["%char] ++
      (fix items (l : list json) : list ascii :=
         match l with
         | [] => []
         | x :: l' =>
             match l' with
             | [] => dumps_chars x
             | _ => dumps_chars x ++ list_ascii_of_string ", " ++ items l'
             end
         end) l ++
      ["]"%char]
  | JObject d =>
      ["{"%char] ++
      (fix members (d : list (string * json)) : list ascii :=
         match d with
         | [] => []
         | (k, x) :: d' =>
             dumps_string k ++ list_ascii_of_string ": " ++
             match d' with
             | [] => dumps_chars x
             | _ => dumps_chars x ++ list_ascii_of_string ", " ++ members d'
             end
         end) d ++
      ["}"%char]
  end.

Definition dumps (v : json) : string := string_of_list_ascii (dumps_chars v).

(** *** Decoding *)

Definition is_ws (c : ascii) : bool :=
  let n := ord c in
  ((n =? 32) || (n =? 9) || (n =? 10) || (n =? 13))%nat.

Fixpoint skip_ws (cs : list ascii) : list ascii :=
  match cs with
  | c :: cs' => if is_ws c then skip_ws cs' else cs
  | [] => []
  end.

Fixpoint strip_prefix (lit cs : list ascii) : option (list ascii) :=
  match lit, cs with
  | [], _ => Some cs
  | a :: lit', c :: cs' =>
      if Ascii.eqb a c then strip_prefix lit' cs' else None
  | _ :: _, [] => None
  end.

Definition unescape_simple (c : ascii) : option ascii :=
  if Ascii.eqb c quote then Some quote
  else if Ascii.eqb c bs then Some bs
  else if Ascii.eqb c "/" then Some "/"%char
  else if Ascii.eqb c "n" then Some (ascii_of_nat 10)
  else if Ascii.eqb c "r" then Some (ascii_of_nat 13)
  else if Ascii.eqb c "t" then Some (ascii_of_nat 9)
  else if Ascii.eqb c "b" then Some (ascii_of_nat 8)
  else if Ascii.eqb c "f" then Some (ascii_of_nat 12)
  else None.

(** An escape of four hexadecimal digits, when it denotes a character of
    [string]. *)
Definition unescape_unicode (a b c d : ascii) : option ascii :=
  match hex_value a, hex_value b, hex_value c, hex_value d with
  | Some 0%nat, Some 0%nat, Some h, Some l => Some (ascii_of_nat (16 * h + l))
  | _, _, _, _ => None
  end.

(** The characters after an opening quote, up to the closing one. *)
Fixpoint parse_string (cs : list ascii) : option (string * list ascii) :=
  match cs with
  | [] => None
  | c :: cs' =>
      if Ascii.eqb c quote then Some (EmptyString, cs')
      else if Ascii.eqb c bs then
        match cs' with
        | e :: cs'' =>
            if Ascii.eqb e "u" then
              match cs'' with
              | h1 :: h2 :: h3 :: h4 :: cs3 =>
                  match unescape_unicode h1 h2 h3 h4, parse_string cs3 with
                  | Some x, Some (s, rest) => Some (String x s, rest)
                  | _, _ => None
                  end
              | _ => None
              end
            else
              match unescape_simple e, parse_string cs'' with
              | Some x, Some (s, rest) => Some (String x s, rest)
              | _, _ => None
              end
        | [] => None
        end
      else if (ord c <? 32)%nat then None
      else
        match parse_string cs' with
        | Some (s, rest) => Some (String c s, rest)
        | None => None
        end
  end.

Fixpoint span_digits (cs : list ascii) : list ascii * list ascii :=
  match cs with
  | c :: cs' =>
      if is_digit c then
        let '(ds, rest) := span_digits cs' in (c :: ds, rest)
      else ([], cs)
  | [] => ([], [])
  end.

(** The longest prefix that is a JSON number, and what follows it. *)
Definition parse_number (cs : list ascii) : option (list ascii * list ascii) :=
  let '(sign, cs1) :=
    match cs with
    | c :: cs' => if Ascii.eqb c "-" then ([c], cs') else ([], cs)
    | [] => ([], [])
    end in
  match cs1 with
  | c :: cs2 =>
      if negb (is_digit c) then None
      else
        let '(int, cs3) :=
          if Ascii.eqb c "0" then ([c], cs2) else span_digits cs1 in
        let '(frac, cs4) :=
          match cs3 with
          | p :: cs' =>
              match span_digits cs' with
              | (d :: ds, rest) =>
                  if Ascii.eqb p "." then (p :: d :: ds, rest) else ([], cs3)
              | _ => ([], cs3)
              end
          | [] => ([], cs3)
          end in
        let '(exp, cs5) :=
          match cs4 with
          | e :: cs' =>
              if Ascii.eqb e "e" || Ascii.eqb e "E" then
                let '(sg, cs'') :=
                  match cs' with
                  | s :: t =>
                      if Ascii.eqb s "+" || Ascii.eqb s "-"
                      then ([s], t) else ([], cs')
                  | [] => ([], cs')
                  end in
                match span_digits cs'' with
                | (d :: ds, rest) => (e :: sg ++ d :: ds, rest)
                | _ => ([], cs4)
                end
              else ([], cs4)
          | [] => ([], cs4)
          end in
        Some (sign ++ int ++ frac ++ exp, cs5)
  | [] => None
  end.

(** [d[k] = v] on a [dict]: a key keeps the place of its first insertion. *)
Fixpoint dict_set {V} (k : string) (v : V) (d : list (string * V))
    : list (string * V) :=
  match d with
  | [] => [(k, v)]
  | (k', v') :: d' =>
      if decide (k' = k) then (k, v) :: d' else (k', v') :: dict_set k v d'
  end.

Fixpoint parse_value (fuel : nat) (cs : list ascii)
    : option (json * list ascii) :=
  match fuel with
  | O => None
  | S fuel =>
      match skip_ws cs with
      | [] => None
      | c :: rest =>
          if Ascii.eqb c quote then
            match parse_string rest with
            | Some (s, rest') => Some (JString s, rest')
            | None => None
            end
          else if Ascii.eqb c "[" then
            match skip_ws rest with
            | c' :: rest' =>
                if Ascii.eqb c' "]" then Some (JArray [], rest')
                else parse_items fuel rest []
            | [] => None
            end
          else if Ascii.eqb c "{" then
            match skip_ws rest with
            | c' :: rest' =>
                if Ascii.eqb c' "}" then Some (JObject [], rest')
                else parse_members fuel rest []
            | [] => None
            end
          else
            match strip_prefix (list_ascii_of_string "null") (c :: rest),
                  strip_prefix (list_ascii_of_string "true") (c :: rest),
                  strip_prefix (list_ascii_of_string "false") (c :: rest) with
            | Some rest', _, _ => Some (JNull, rest')
            | _, Some rest', _ => Some (JBool true, rest')
            | _, _, Some rest' => Some (JBool false, rest')
            | None, None, None =>
                match parse_number (c :: rest) with
                | Some (literal, rest') =>
                    Some (JNumber (string_of_list_ascii literal), rest')
                | None =>
                    match strip_prefix (list_ascii_of_string "NaN") (c :: rest),
                          strip_prefix (list_ascii_of_string "Infinity")
                            (c :: rest),
                          strip_prefix (list_ascii_of_string "-Infinity")
                            (c :: rest) with
                    | Some rest', _, _ => Some (JNumber "NaN", rest')
                    | _, Some rest', _ => Some (JNumber "Infinity", rest')
                    | _, _, Some rest' => Some (JNumber "-Infinity", rest')
                    | None, None, None => None
                    end
                end
            end
      end
  end

with parse_items (fuel : nat) (cs : list ascii) (acc : list json)
    : option (json * list ascii) :=
  match fuel with
  | O => None
  | S fuel =>
      match parse_value fuel cs with
      | Some (v, rest) =>
          match skip_ws rest with
          | c :: rest' =>
              if Ascii.eqb c "," then parse_items fuel rest' (acc ++ [v])
              else if Ascii.eqb c "]" then Some (JArray (acc ++ [v]), rest')
              else None
          | [] => None
          end
      | None => None
      end
  end

with parse_members (fuel : nat) (cs : list ascii) (acc : list (string * json))
    : option (json * list ascii) :=
  match fuel with
  | O => None
  | S fuel =>
      match skip_ws cs with
      | q :: rest =>
          if negb (Ascii.eqb q quote) then None
          else
            match parse_string rest with
            | Some (k, rest1) =>
                match skip_ws rest1 with
                | c :: rest2 =>
                    if negb (Ascii.eqb c ":") then None
                    else
                      match parse_value fuel rest2 with
                      | Some (v, rest3) =>
                          match skip_ws rest3 with
                          | c' :: rest4 =>
                              if Ascii.eqb c' "," then
                                parse_members fuel rest4 (dict_set k v acc)
                              else if Ascii.eqb c' "}" then
                                Some (JObject (dict_set k v acc), rest4)
                              else None
                          | [] => None
                          end
                      | None => None
                      end
                | [] => None
                end
            | None => None
            end
      | [] => None
      end
  end.

(** [json.loads]; a document that does not decode raises [ValueError]
    ([JSONDecodeError] is one), and so does, here, one with an escape beyond
    [string]. *)
Definition loads (s : string) : result json :=
  let cs := list_ascii_of_string s in
  match parse_value (2 * length cs + 2) cs with
  | Some (v, rest) =>
      match skip_ws rest with
      | [] => Ok v
      | _ :: _ => Raise (Py ValueError)
      end
  | None => Raise (Py ValueError)
  end.

End pyjson.

(** ** importer/harvest.py

    The harvest engine is not among the sources; its tests
    ([kuha/test/importer/test_harvest.py]) are.  The two operations below
    are modelled from the spec, and return the calls they make on the models
    the way the mocks of the tests record them. *)

Module harvest.

(** A call on [models], or a line written to the log. *)
Inductive Call :=
  | Item_list
  | Item_get (identifier : string)
  | Item_create_or_update (identifier : string)
  | mark_as_deleted (identifier : string)
  | clear_sets (identifier : string)
  | Set_create_or_update (spec name : string)
  | add_to_set (identifier spec : string)
  | purge_deleted
  | commit
  | log (line : string).

#[global] Instance Call_eq_dec : EqDecision Call.
Proof. solve_decision. Defined.

(** What a harvest operation ends in: its calls and its value, or a
    [HarvestError] with its message. *)
Inductive Outcome (A : Type) :=
  | Done (calls : list Call) (value : A)
  | HarvestError (message : string).
Arguments Done {A} calls value.
Arguments HarvestError {A} message.

(** An identifier as the provider yields it: [str(i)] gives a string or
    raises with a message. *)
Inductive ProviderId :=
  | Str (s : string)
  | Unconvertible (message : string).

(** [s1 <= s2] on strings, by code points. *)
Definition str_le (s1 s2 : string) : Prop := String.leb s1 s2 = true.

#[global] Instance str_le_dec s1 s2 : Decision (str_le s1 s2).
Proof. unfold str_le. apply _. Defined.

(** The order of [sorted] on the (spec, name) pairs: by the spec string. *)
Definition by_spec (a b : string * string) : Prop := str_le a.1 b.1.

#[global] Instance by_spec_dec a b : Decision (by_spec a b).
Proof. unfold by_spec. apply _. Defined.

(** [a] is a proper ancestor of [b] in the hierarchy of set specs: [b] is
    [a], a colon, and more. *)
Definition ancestor (a b : string) : Prop :=
  ∃ rest, b = a +:+ ":" +:+ rest.

(** Modelled from the spec: [harvest.update_sets], absent from the sources.
    "Look up the Item by identifier, clear its existing set memberships, then
    for each (spec, name) pair upsert a Set and add the item to it, sorted by
    spec string ascending"; with [dry_run] "every mutating call [...] is
    skipped".  [sets] is what [provider.get_sets(identifier)] returned. *)
Definition update_sets (sets : list (string * string)) (identifier : string)
    (dry_run : bool) : list Call :=
  if dry_run then [Item_get identifier]
  else
    [Item_get identifier; clear_sets identifier] ++
    flat_map
      (λ '(spec, name),
         [Set_create_or_update spec name; add_to_set identifier spec])
      (merge_sort by_spec sets).

(** [str(i) for i in provider.identifiers()]: the first failure aborts. *)
Fixpoint convert_all (ids : list ProviderId) : string + list string :=
  match ids with
  | [] => inr []
  | Str s :: rest =>
      match convert_all rest with
      | inr l => inr (s :: l)
      | inl e => inl e
      end
  | Unconvertible message :: _ => inl message
  end.

Fixpoint digits_of (fuel n : nat) (acc : string) : string :=
  match fuel with
  | O => acc
  | S fuel =>
      let acc' := String (digit_char n) acc in
      if (n <? 10)%nat then acc' else digits_of fuel (n / 10) acc'
  end.

(** [str(n)] for a count. *)
Definition str_of_nat (n : nat) : string := digits_of (S n) n EmptyString.

(** "N item" or "N items". *)
Definition counted (n : nat) (noun : string) : string :=
  str_of_nat n +:+ " " +:+ noun +:+ (if decide (n = 1%nat) then "" else "s").

(** Modelled from the spec: [harvest.update_items], absent from the sources.
    The identifiers of the provider are converted to strings (a failure is a
    [HarvestError] with the message of the failure) and deduplicated into a
    set; the items of the store that are not in the set are marked as
    deleted, every identifier of the set is created or updated, deleted
    entries are purged when [purge] is set, there is one commit at the end,
    and one summary line is logged; with [dry_run] the mutating calls are
    skipped.  The set is returned.  [old_items] holds the identifiers of
    [Item.list(ignore_deleted=True)].

    The spec marks absent items as deleted "only if purge";
    [TestUpdateItems.test_no_identifiers] has them marked with
    [purge=False], which is what is modelled. *)
Definition update_items (provider_identifiers : list ProviderId)
    (old_items : list string) (purge dry_run : bool)
    : Outcome (gset string) :=
  match convert_all provider_identifiers with
  | inl message => HarvestError message
  | inr ids =>
      let identifiers : gset string := list_to_set ids in
      let removed := filter (λ i, i ∉ identifiers) old_items in
      let added := filter (λ i, i ∉ old_items) (elements identifiers) in
      let live (calls : list Call) := if dry_run then [] else calls in
      Done
        ([Item_list] ++
         live (mark_as_deleted <$> removed) ++
         live (Item_create_or_update <$> elements identifiers) ++
         live (if purge then [purge_deleted] else []) ++
         live [commit] ++
         [log ("Removed " +:+ counted (length removed) "item" +:+
               " and added " +:+ counted (length added) "item" +:+ ".")])
        identifiers
  end.

End harvest.

(** ** The vocabulary of the properties *)

(** *** The parameter validator, in the words of its contract *)

Inductive Verdict :=
  | Succeeds
  | FailsMissingVerb
  | FailsRepeatedVerb
  | FailsBadArgument.

(** What a run of the validator amounts to. *)
Definition verdict (r : result unit) : option Verdict :=
  match r with
  | Ok _ => Some Succeeds
  | Raise (Oai MissingVerb) => Some FailsMissingVerb
  | Raise (Oai RepeatedVerb) => Some FailsRepeatedVerb
  | Raise (Oai (BadArgument _)) => Some FailsBadArgument
  | Raise _ => None
  end.

Definition times_given (name : string) (items : list (string * string)) : nat :=
  length (filter (λ kv, kv.1 = name) items).

(** A violation other than a missing or repeated verb: an unexpected name, a
    repeated parameter, a value with illegal control characters, or a
    required name that is missing. *)
Definition violation (items : list (string * string))
    (required allowed : list string) : bool :=
  existsb (λ kv, negb (bool_decide
             (kv.1 = "verb" ∨ kv.1 ∈ required ∨ kv.1 ∈ allowed))) items ||
  existsb (λ kv, bool_decide (1 < times_given kv.1 items)) items ||
  existsb (λ kv, util.contains_illegal_chars kv.2) items ||
  existsb (λ name, bool_decide (name ∉ items.*1)) required.

Definition validator_spec (items : list (string * string))
    (required allowed : list string) : Verdict :=
  match times_given "verb" items with
  | 0 => FailsMissingVerb
  | 1 => if violation items required allowed then FailsBadArgument else Succeeds
  | _ => FailsRepeatedVerb
  end.

(** What one round of the loop over the names accepts. *)
Definition name_ok (p : Params) (required allowed : list string)
    (name : string) : bool :=
  (bool_decide (name = "verb") || bool_decide (name ∈ allowed) ||
   bool_decide (name ∈ required)) &&
  negb (has_getall p && bool_decide (1 < length (getall name p))) &&
  match get name p with
  | Some value => negb (util.contains_illegal_chars value)
  | None => true
  end.

(** *** Date ranges *)

Definition timeofday_of (d : datetime) : timeofday :=
  mk_time (hour d) (minute d) (second d).

(** The outcome for a [from] and an [until] that both parse. *)
Definition from_until_outcome (fd ud : datetime) (fg ug : granularity)
    : result (option datetime * option datetime) :=
  if bool_decide (fg ≠ ug) then
    raise (BadArgument
      ("Datestamps " +:+ dq +:+ "from" +:+ dq +:+ " and " +:+ dq +:+
       "until" +:+ dq +:+ " have different granularity"))
  else if datetime_gtb fd ud then
    raise (BadArgument
      ("Datestamp " +:+ dq +:+ "from" +:+ dq +:+
       " is greater than " +:+ dq +:+ "until" +:+ dq))
  else Ok (Some fd, Some ud).

(** *** Resumption tokens *)

(** The request holds a resumption token and nothing that
    [_get_resumption_token] objects to beside it. *)
Definition only_token (request : Request) : Prop :=
  contains "resumptionToken" (MultiDict (params request)) = true ∧
  _check_params (MultiDict (params request)) ["resumptionToken"] [] = Ok ().

(** The request carries a resumption token that decodes to the fields
    [token], among them the verb of the request. *)
Definition carries_token (json_loads : string → result json)
    (request : Request) (token : list (string * option string)) : Prop :=
  only_token request ∧
  ∃ value d,
    getitem "resumptionToken" (MultiDict (params request)) = Ok (Some value) ∧
    json_loads value = Ok (JObject d) ∧
    check_types d = Ok token ∧
    getitem "verb" (MultiDict (params request)) =
      Ok (mjoin (dict_lookup "verb" token)).

(** The date of the token parses and is not later than the [Datestamp] of
    the store. *)
Definition expired (m : models) (token : list (string * option string))
    : Prop :=
  ∃ s date g latest,
    dict_lookup "date" token = Some (Some s) ∧
    util.parse_date s util.midnight = Ok (date, g) ∧
    Datestamp_get m = Some latest ∧
    datetime_geb latest date = true.

(** The fields [_create_resumption_token] encodes. *)
Definition token_fields (verb prefix offset : option string) (time : datetime)
    (p : Params) : list (string * option string) :=
  [("verb", verb);
   ("metadataPrefix", prefix);
   ("offset", offset);
   ("date", Some (util.format_datestamp time));
   ("from", get "from" p);
   ("until", get "until" p);
   ("set", get "set" p)].

(** *** Listing *)

Definition supplied {A} (o : option A) : bool :=
  match o with
  | Some _ => true
  | None => false
  end.

(** [token_params or request.params] *)
Definition effective_params
    (token_params : option (list (string * option string)))
    (request : Request) : Params :=
  match token_params with
  | Some (kv :: d) => Dict (kv :: d)
  | _ => MultiDict (params request)
  end.

(** The query [_get_records] sends to [Record.list]. *)
Definition list_query (request : Request) (p : Params)
    (prefix : option string) (dates : option datetime * option datetime)
    : RecordQuery :=
  {| q_identifier := None;
     q_metadata_prefix := prefix;
     q_from_date := dates.1;
     q_until_date := dates.2;
     q_set := get "set" p;
     q_ignore_deleted := _get_ignore_deleted request;
     q_offset := get "offset" p;
     q_limit := Some (item_list_limit request + 1)%Z |}.

(** The request gets as far as the query: its token, if it has one, decodes
    to [token_params], and the effective parameters pass every check. *)
Definition validated (json_loads : string → result json) (m : models)
    (request : Request)
    (token_params : option (list (string * option string)))
    (prefix : option string) (dates : option datetime * option datetime)
    : Prop :=
  let p := effective_params token_params request in
  _get_resumption_token json_loads m request = Ok token_params ∧
  _check_params p
    (if supplied token_params
     then ["metadataPrefix"; "offset"; "date"; "from"; "until"; "set"]
     else ["metadataPrefix"])
    (if supplied token_params then [] else ["from"; "until"; "set"]) = Ok () ∧
  _get_metadata_prefix m p (_get_ignore_deleted request) = Ok prefix ∧
  _parse_from_and_until (get "from" p) (get "until" p) = Ok dates ∧
  (get "set" p = None ∨ Set_list m ≠ []).

(** *** The JSON codec *)

(** No illegal control character among the characters. *)
Definition clean (cs : list ascii) : Prop :=
  Forall (λ c, util.is_illegal_char c = false) cs.

(** The members of an object, as [pyjson.dumps_chars] writes them. *)
Fixpoint members_chars (d : list (string * json)) : list ascii :=
  match d with
  | [] => []
  | (k, x) :: d' =>
      pyjson.dumps_string k ++ list_ascii_of_string ": " ++
      match d' with
      | [] => pyjson.dumps_chars x
      | _ =>
          pyjson.dumps_chars x ++ list_ascii_of_string ", " ++ members_chars d'
      end
  end.

(** The members of the object that stands for a token. *)
Definition flat (d : list (string * option string)) : list (string * json) :=
  prod_map id json_of_value <$> d.

(** *** Harvest *)

(** The two calls [update_sets] makes for one set. *)
Definition set_calls (identifier : string) (set : string * string)
    : list harvest.Call :=
  let '(spec, name) := set in
  [harvest.Set_create_or_update spec name; harvest.add_to_set identifier spec].

Definition times_called (c : harvest.Call) (calls : list harvest.Call) : nat :=
  length (filter (λ c', c' = c) calls).

(** ** A small repository

    Three records in one format, no sets, last synchronised at the start
    of 2014; and the requests the properties are tried on. *)

Module example.

Definition synchronised : datetime := mk_datetime 2014 1 1 0 0 0.

Definition now : datetime := mk_datetime 2014 2 4 10 54 27.

Definition item (identifier : string) : Record_ :=
  mk_record identifier "oai_dc" synchronised false.

Definition all_records : list Record_ :=
  [item "item1"; item "item2"; item "item3"].

Definition oai_dc : Format :=
  mk_format "oai_dc" "http://www.openarchives.org/OAI/2.0/oai_dc/"
    "http://www.openarchives.org/OAI/2.0/oai_dc.xsd".

(** Does the record answer the query?  The offset is the identifier to
    start from. *)
Definition matches (q : RecordQuery) (r : Record_) : bool :=
  bool_decide (q_metadata_prefix q = Some (metadata_prefix r)) &&
  match q_identifier q with
  | Some i => bool_decide (identifier r = i)
  | None => true
  end &&
  match q_from_date q with
  | Some f => datetime_geb (datestamp r) f
  | None => true
  end &&
  match q_until_date q with
  | Some u => datetime_geb u (datestamp r)
  | None => true
  end &&
  match q_set q with
  | Some _ => false
  | None => true
  end &&
  match q_offset q with
  | Some o => String.leb o (identifier r)
  | None => true
  end &&
  negb (q_ignore_deleted q && deleted r).

Definition store : models :=
  {| Item_exists := λ i _, bool_decide (i ∈ (Some ∘ identifier <$> all_records));
     Format_exists := λ p _, bool_decide (p = Some "oai_dc");
     Format_list := λ _ _, [oai_dc];
     Record_list := λ q,
       let found := List.filter (matches q) all_records in
       match q_limit q with
       | Some n => take (Z.to_nat n) found
       | None => found
       end;
     Set_list := [];
     Datestamp_get := Some synchronised |}.

Definition request_of (ps : list (string * string)) : Request :=
  mk_request ps now "no" 2.

(** [?verb=ListRecords&metadataPrefix=oai_dc] *)
Definition list_records : Request :=
  request_of [("verb", "ListRecords"); ("metadataPrefix", "oai_dc")].

(** The same, for the records from 2015 on: there are none. *)
Definition list_records_from_2015 : Request :=
  request_of [("verb", "ListRecords"); ("metadataPrefix", "oai_dc");
              ("from", "2015-01-01")].

(** A token for the listing ([verb]) from [offset] on, issued at [date]. *)
Definition token_of (verb offset date : string)
    : list (string * option string) :=
  [("verb", Some verb);
   ("metadataPrefix", Some "oai_dc");
   ("offset", Some offset);
   ("date", Some date);
   ("from", None);
   ("until", None);
   ("set", None)].

Definition resume (verb : string) (token : list (string * option string))
    : Request :=
  request_of [("verb", verb);
              ("resumptionToken", pyjson.dumps (json_of_dict token))].

(** A token issued at the very time of the last synchronisation. *)
Definition stale_token : list (string * option string) :=
  token_of "ListIdentifiers" "item3" "2014-01-01T00:00:00Z".

Definition resume_stale : Request := resume "ListIdentifiers" stale_token.

(** A token issued later, which starts after the last record. *)
Definition late_token : list (string * option string) :=
  token_of "ListIdentifiers" "item9" "2014-02-01T00:00:00Z".

Definition resume_late : Request := resume "ListIdentifiers" late_token.

(** A token issued later, for the last record. *)
Definition last_token : list (string * option string) :=
  token_of "ListIdentifiers" "item3" "2014-02-01T00:00:00Z".

Definition resume_last : Request := resume "ListIdentifiers" last_token.

(** ListSets with a resumption token, well formed and stale. *)
Definition list_sets_resume : Request :=
  resume "ListSets" (token_of "ListSets" "item3" "2014-01-01T00:00:00Z").

(** ListSets with a resumption token and one more argument. *)
Definition list_sets_resume_and_more : Request :=
  request_of [("verb", "ListSets"); ("resumptionToken", "token");
              ("set", "a")].

End example.

(** ** oai/views.py: Identify *)

(** The settings [handle_identify] copies into its context, beside
    [deleted_records]. *)
Record Settings := mk_settings {
  repository_name : string;
  admin_emails : list string;
  repository_descriptions : list string
}.

(** The rendering context of Identify. *)
Record Identify := mk_identify {
  earliest : datetime;
  identify_repository_name : string;
  identify_admin_emails : list string;
  identify_deleted_records : string;
  identify_repository_descriptions : list string
}.

(** [handle_identify].  [earliest_datestamp] is [Record.earliest_datestamp],
    a query of the store that only this view makes, and [settings] holds the
    values it copies from [request.registry.settings].  A [datetime] is
    never false, so [earliest or request.time] is the request time only when
    the store has no datestamp. *)
Definition handle_identify (earliest_datestamp : bool → option datetime)
    (settings : Settings) (request : Request) : result Identify :=
  _check_params (MultiDict (params request)) [] [] ;;!
  let ignore_deleted := _get_ignore_deleted request in
  let earliest := earliest_datestamp ignore_deleted in
  Ok {| earliest := default (time request) earliest;
        identify_repository_name := repository_name settings;
        identify_admin_emails := admin_emails settings;
        identify_deleted_records := deleted_records request;
        identify_repository_descriptions := repository_descriptions settings |}.

(** *** GetRecord *)

(** The query of [handle_get_record]. *)
Definition record_query (identifier prefix : option string)
    (ignore_deleted : bool) : RecordQuery :=
  {| q_identifier := identifier;
     q_metadata_prefix := prefix;
     q_from_date := None;
     q_until_date := None;
     q_set := None;
     q_ignore_deleted := ignore_deleted;
     q_offset := None;
     q_limit := None |}.

(** ** More requests to the small repository *)

Module requests.

Definition settings : Settings :=
  mk_settings "Kuha" ["admin@example.org"] [].

(** [?verb=Identify] *)
Definition identify : Request := example.request_of [("verb", "Identify")].

(** [?verb=ListSets] *)
Definition list_sets : Request := example.request_of [("verb", "ListSets")].

(** [?verb=GetRecord&identifier=item1&metadataPrefix=oai_dc] *)
Definition get_record : Request :=
  example.request_of [("verb", "GetRecord"); ("identifier", "item1");
                      ("metadataPrefix", "oai_dc")].

(** [?verb=ListMetadataFormats&identifier=item1] *)
Definition list_formats : Request :=
  example.request_of [("verb", "ListMetadataFormats");
                      ("identifier", "item1")].

(** A listing in a format the repository does not have. *)
Definition list_records_ead : Request :=
  example.request_of [("verb", "ListRecords"); ("metadataPrefix", "ead")].

(** A listing of one set. *)
Definition list_records_set : Request :=
  example.request_of [("verb", "ListRecords"); ("metadataPrefix", "oai_dc");
                      ("set", "a")].

(** A resumption token and one more argument. *)
Definition token_and_set : Request :=
  example.request_of [("verb", "ListRecords"); ("resumptionToken", "token");
                      ("set", "a")].

(** A token of ListIdentifiers, sent with ListRecords. *)
Definition resume_other_verb : Request :=
  example.resume "ListRecords" example.stale_token.

(** The fields of the token the first page of [example.list_records] comes
    with, and the request that replays it. *)
Definition issued_fields : list (string * option string) :=
  token_fields (Some "ListRecords") (Some "oai_dc") (Some "item3") example.now
    (MultiDict (params example.list_records)).

Definition resume_issued : Request :=
  example.request_of
    [("verb", "ListRecords");
     ("resumptionToken", pyjson.dumps (json_of_dict issued_fields))].

End requests.

(** * Properties *)

(** ** exception.py *)

(** C10: whatever the identifier, the message of the [NoMetadataFormats]
    built from it is the literal template, with its [%s] left as it is:
    [str.format] only fills fields written with braces, and the identifier
    does not reach the message. *)
Theorem NoMetadataFormats_message_is_template (identifier : option string) :
  ∃ e, new_NoMetadataFormats identifier = Ok e ∧
       message e =
         "No metadata formats available for item " +:+ dq +:+ "%s" +:+ dq +:+
         ".".
Proof. eexists. split; reflexivity. Qed.

(** By contrast the identifier is part of the message of [IdDoesNotExist],
    whose template has a field in braces. *)
Example IdDoesNotExist_message_names_item :
  ∃ e, new_IdDoesNotExist (Some "oai:1") = Ok e ∧
       message e =
         "Identifier " +:+ dq +:+ "oai:1" +:+ dq +:+ " does not exist.".
Proof. eexists. split; reflexivity. Qed.

(** ** The parameter validator *)

Lemma raise_BadArgument_illegal {A} name :
  @raise_BadArgument A "Illegal argument: " name =
  raise (new_BadArgument ("Illegal argument: " +:+ dq +:+ name +:+ dq)).
Proof. reflexivity. Qed.

Lemma raise_BadArgument_repeated {A} name :
  @raise_BadArgument A "Repeated argument: " name =
  raise (new_BadArgument ("Repeated argument: " +:+ dq +:+ name +:+ dq)).
Proof. reflexivity. Qed.

Lemma raise_BadArgument_invalid {A} name :
  @raise_BadArgument A "Invalid argument: " name =
  raise (new_BadArgument ("Invalid argument: " +:+ dq +:+ name +:+ dq)).
Proof. reflexivity. Qed.

Lemma raise_BadArgument_missing {A} name :
  @raise_BadArgument A "Missing argument: " name =
  raise (new_BadArgument ("Missing argument: " +:+ dq +:+ name +:+ dq)).
Proof. reflexivity. Qed.

Lemma check_names_verdict p required allowed names :
  verdict (check_names p required allowed names) =
  Some (if forallb (name_ok p required allowed) names
        then Succeeds else FailsBadArgument).
Proof.
  induction names as [|name names IH]; [done|].
  cbn [check_names forallb]. unfold name_ok at 1.
  destruct (bool_decide (name = "verb") || bool_decide (name ∈ allowed) ||
            bool_decide (name ∈ required)); cbn [negb andb];
    [|by rewrite raise_BadArgument_illegal].
  destruct (has_getall p && bool_decide (1 < length (getall name p)));
    cbn [negb andb]; [by rewrite raise_BadArgument_repeated|].
  destruct (get name p) as [value|]; [|done].
  destruct (util.contains_illegal_chars value); cbn [negb];
    [by rewrite raise_BadArgument_invalid|done].
Qed.

Lemma check_required_verdict p required :
  verdict (check_required p required) =
  Some (if forallb (λ name, contains name p) required
        then Succeeds else FailsBadArgument).
Proof.
  induction required as [|name required IH]; [done|].
  cbn [check_required forallb].
  destruct (contains name p); cbn [negb andb];
    [done|by rewrite raise_BadArgument_missing].
Qed.

Lemma filter_singleton {A} (P : A → Prop) `{!∀ x, Decision (P x)} l x :
  x ∈ l → P x → length (filter P l) ≤ 1 → filter P l = [x].
Proof.
  induction l as [|y l IH]; intros Hin HP Hlen; [by inversion Hin|].
  rewrite filter_cons in *. destruct (decide (P y)) as [Hy|Hy].
  - cbn in Hlen. destruct (filter P l) as [|z l'] eqn:E; [|cbn in Hlen; lia].
    apply elem_of_cons in Hin as [->|Hin]; [done|].
    assert (x ∈ filter P l) as Hx by (by apply list_elem_of_filter).
    rewrite E in Hx. by inversion Hx.
  - apply elem_of_cons in Hin as [->|Hin]; [done|]. by apply IH.
Qed.

Lemma get_given_once items k v :
  (k, v) ∈ items → times_given k items ≤ 1 →
  get k (MultiDict items) = Some v.
Proof.
  intros Hin Hlen. unfold get, getitem, getall.
  rewrite (filter_singleton (λ kv : string * string, kv.1 = k) items (k, v));
    done.
Qed.

Lemma times_given_length name items :
  length (getall name (MultiDict items)) = times_given name items.
Proof. unfold getall, times_given. by rewrite length_fmap. Qed.

Lemma contains_times_given name items :
  contains name (MultiDict items) = bool_decide (0 < times_given name items).
Proof.
  unfold contains, times_given, keys. apply bool_decide_ext.
  rewrite list_elem_of_fmap. split.
  - intros [[k v] [-> Hin]].
    assert ((k, v) ∈ filter (λ kv : string * string, kv.1 = k) items) as H
      by (by apply list_elem_of_filter).
    destruct (filter _ items); [by inversion H|cbn; lia].
  - intros Hlen. destruct (filter _ items) as [|kv l] eqn:E; [cbn in Hlen; lia|].
    assert (kv ∈ filter (λ kv : string * string, kv.1 = name) items) as H
      by (rewrite E; left).
    apply list_elem_of_filter in H as [<- H]. by exists kv.
Qed.

Lemma names_ok_no_violation items required allowed :
  forallb (name_ok (MultiDict items) required allowed) items.*1 &&
  forallb (λ name, contains name (MultiDict items)) required =
  negb (violation items required allowed).
Proof.
  apply eq_true_iff_eq. rewrite andb_true_iff, negb_true_iff.
  unfold violation. rewrite !orb_false_iff, !forallb_forall.
  rewrite <- !not_true_iff_false, !existsb_exists.
  split.
  - intros [Hnames Hreq].
    assert (Hone : ∀ kv, kv ∈ items →
              name_ok (MultiDict items) required allowed kv.1 = true).
    { intros kv Hkv. apply Hnames, list_elem_of_In, list_elem_of_fmap. eauto. }
    repeat split.
    + intros [kv [Hkv Hbad%negb_true_iff%bool_decide_eq_false]].
      apply list_elem_of_In, Hone in Hkv. unfold name_ok in Hkv.
      apply andb_true_iff in Hkv as [[H _]%andb_true_iff _].
      apply Hbad. rewrite !orb_true_iff, !bool_decide_eq_true in H. tauto.
    + intros [kv [Hkv Hbad%bool_decide_eq_true]].
      apply list_elem_of_In, Hone in Hkv. unfold name_ok in Hkv.
      apply andb_true_iff in Hkv as [[_ H%negb_true_iff]%andb_true_iff _].
      cbn [has_getall andb] in H. rewrite times_given_length in H.
      apply bool_decide_eq_false in H. lia.
    + intros [[k v] [Hkv Hbad]]. apply list_elem_of_In in Hkv.
      pose proof (Hone _ Hkv) as H. unfold name_ok in H. cbn [fst] in H.
      apply andb_true_iff in H as [[_ Hrep%negb_true_iff]%andb_true_iff H].
      cbn [has_getall andb] in Hrep. rewrite times_given_length in Hrep.
      apply bool_decide_eq_false in Hrep.
      rewrite (get_given_once items k v) in H by (done || lia).
      cbn [snd] in Hbad. rewrite Hbad in H. done.
    + intros [name [Hname Hbad%bool_decide_eq_true]].
      apply Hreq in Hname. unfold contains in Hname.
      by apply bool_decide_eq_true in Hname.
  - intros [[[Hexp Hrep] Hill] Hreq]. split.
    + intros name [[k v] [-> Hkv]]%list_elem_of_In%list_elem_of_fmap.
      cbn [fst]. unfold name_ok.
      assert (times_given k items ≤ 1) as Hone.
      { destruct (decide (1 < times_given k items)) as [Hlt|]; [|lia].
        exfalso. apply Hrep. exists (k, v). split; [by apply list_elem_of_In|].
        by apply bool_decide_eq_true. }
      rewrite !andb_true_iff. repeat split.
      * destruct (decide (k = "verb" ∨ k ∈ required ∨ k ∈ allowed)) as [H|H].
        -- rewrite !orb_true_iff, !bool_decide_eq_true. tauto.
        -- exfalso. apply Hexp. exists (k, v). split; [by apply list_elem_of_In|].
           by apply negb_true_iff, bool_decide_eq_false.
      * apply negb_true_iff. cbn [has_getall andb]. rewrite times_given_length.
        apply bool_decide_eq_false. lia.
      * rewrite (get_given_once items k v) by done.
        apply negb_true_iff, not_true_iff_false. intros H.
        apply Hill. exists (k, v). split; [by apply list_elem_of_In|done].
    + intros name Hname. unfold contains. apply bool_decide_eq_true.
      destruct (decide (name ∈ keys (MultiDict items))) as [|Hn]; [done|].
      exfalso. apply Hreq. exists name. split; [done|].
      by apply bool_decide_eq_true.
Qed.

(** C4: on every raw parameter set and every list of required and allowed
    names, [_check_params] fails with [MissingVerb] when there is no verb,
    with [RepeatedVerb] when the verb is given more than once, with
    [BadArgument] on any other violation (an unexpected name, a repeated
    parameter, a value with illegal control characters, a required name that
    is missing), and succeeds otherwise. *)
Theorem check_params_verdict (items : list (string * string))
    (required allowed : list string) :
  verdict (_check_params (MultiDict items) required allowed) =
  Some (validator_spec items required allowed).
Proof.
  unfold _check_params, validator_spec.
  rewrite contains_times_given. cbn [has_getall andb].
  rewrite times_given_length.
  destruct (times_given "verb" items) as [|[|n]] eqn:Hverb.
  - done.
  - rewrite bool_decide_eq_true_2 by lia. cbn [negb].
    rewrite bool_decide_eq_false_2 by lia.
    rewrite <- (negb_involutive (violation _ _ _)),
      <- names_ok_no_violation.
    pose proof (check_names_verdict (MultiDict items) required allowed
                  (keys (MultiDict items))) as Hn.
    pose proof (check_required_verdict (MultiDict items) required) as Hr.
    cbn [keys] in *.
    destruct (check_names _ _ _ _) as [[]|e];
      destruct (forallb (name_ok _ _ _) _); cbn in Hn |- *; try done.
    + destruct (check_required _ _) as [[]|e'];
        destruct (forallb _ required); cbn in Hr |- *; done.
    + destruct e as [[]|]; done.
  - rewrite bool_decide_eq_true_2 by lia. cbn [negb].
    by rewrite bool_decide_eq_true_2 by lia.
Qed.

(** ** Datestamps *)

Lemma digit_char_spec n :
  is_digit (digit_char n) = true ∧ digit_value (digit_char n) = (n mod 10)%nat.
Proof.
  unfold digit_char.
  pose proof (Nat.mod_upper_bound n 10 ltac:(lia)) as Hk.
  destruct (n mod 10)%nat as [|k]; [by vm_compute|].
  do 9 (destruct k as [|k]; [by vm_compute|]). lia.
Qed.

Lemma read_digits_digit_char acc n cs :
  read_digits acc (digit_char n :: cs) =
  read_digits (10 * acc + n mod 10) cs.
Proof.
  cbn [read_digits]. by destruct (digit_char_spec n) as [-> ->].
Qed.

Lemma read_pad2 n : (n < 100)%nat → read_number (pad2 n) = Some n.
Proof.
  intros Hn. unfold read_number, pad2.
  rewrite !read_digits_digit_char. cbn [read_digits]. f_equal.
  rewrite (Nat.mod_small (n / 10) 10) by (apply Nat.Div0.div_lt_upper_bound; lia).
  pose proof (Nat.div_mod_eq n 10). lia.
Qed.

Lemma read_pad4 n : (n < 100 * 100)%nat → read_number (pad4 n) = Some n.
Proof.
  intros Hn. unfold read_number, pad4.
  rewrite !read_digits_digit_char. cbn [read_digits]. f_equal.
  rewrite (Nat.mod_small (n / 1000) 10) by (apply Nat.Div0.div_lt_upper_bound; lia).
  pose proof (Nat.div_mod_eq n 10) as H1.
  pose proof (Nat.div_mod_eq (n / 10) 10) as H2.
  pose proof (Nat.div_mod_eq (n / 100) 10) as H3.
  rewrite Nat.Div0.div_div in H2. rewrite Nat.Div0.div_div in H3.
  change (10 * 10)%nat with 100%nat in H2.
  change (100 * 10)%nat with 1000%nat in H3.
  lia.
Qed.

Lemma parse_format_datestamp (d : datetime) (t : timeofday) :
  valid_datetime d = true →
  util.parse_date (util.format_datestamp d) t = Ok (d, SecondGranularity).
Proof.
  destruct d as [y m dd h i s].
  intros Hv. unfold util.parse_date, util.format_datestamp.
  rewrite list_ascii_of_string_of_list_ascii.
  cbn [year month day hour minute second].
  pose proof Hv as Hv'.
  unfold valid_datetime, valid_date, valid_time in Hv'.
  cbn [t_hour t_minute t_second year month day hour minute second] in Hv'.
  rewrite !andb_true_iff in Hv'.
  destruct Hv' as [[[[[[Hy1 Hy2] Hm1] Hm2] Hd1] Hd2] [[Hh Hi] Hs]].
  apply Nat.ltb_lt in Hy2. apply Nat.leb_le in Hm2, Hh, Hi, Hs, Hd2.
  assert (dd <= 31)%nat.
  { etrans; [exact Hd2|]. unfold days_in_month.
    do 13 (try destruct m as [|m]; try lia); destruct (is_leap _); lia. }
  unfold pad4 at 1. unfold pad2. cbn [app].
  change [digit_char (y / 1000); digit_char (y / 100);
          digit_char (y / 10); digit_char y] with (pad4 y).
  repeat match goal with
  | |- context [read_number [digit_char (?n / 10); digit_char ?n]] =>
      change [digit_char (n / 10); digit_char n] with (pad2 n)
  end.
  rewrite read_pad4 by lia. rewrite !read_pad2 by lia.
  unfold valid_datetime in Hv.
  cbn [year month day hour minute second] in Hv.
  apply andb_true_iff in Hv as [Hv1 Hv2]. rewrite Hv1, Hv2.
  reflexivity.
Qed.

Lemma lex_opp c1 c2 : CompOpp (lex c1 c2) = lex (CompOpp c1) (CompOpp c2).
Proof. by destruct c1. Qed.

Lemma datetime_compare_antisym a b :
  datetime_compare a b = CompOpp (datetime_compare b a).
Proof.
  unfold datetime_compare. rewrite !lex_opp.
  by rewrite <- !Nat.compare_antisym.
Qed.

Lemma datetime_gtb_not_geb a b :
  datetime_gtb a b = true → datetime_geb b a = false.
Proof.
  unfold datetime_gtb, datetime_geb. rewrite (datetime_compare_antisym b a).
  by destruct (datetime_compare a b).
Qed.

(** ** The date range parser *)

Lemma parse_date_day_default s t d :
  util.parse_date s t = Ok (d, DayGranularity) →
  timeofday_of d = t.
Proof.
  unfold util.parse_date. intros H.
  repeat (match type of H with
          | context [match ?x with _ => _ end] => destruct x eqn:?
          end; try discriminate).
  all: injection H as <-; try done.
  all: by destruct t.
Qed.

(** C6: an [until] is read with the time of day 23:59:59 as its default,
    whether it comes alone or with a [from]: a value without a time of day
    denotes the last second of its day.  Given alone,
    [_parse_from_and_until] returns that date and no [from].  Given with a
    [from] that parses, it fails with [BadArgument] if their granularities
    differ, fails with [BadArgument] if they have the same granularity and
    [from] is greater than [until], and returns the two dates otherwise. *)
Theorem parse_from_and_until_pair (u : string) (ud : datetime)
    (ug : granularity) :
  util.parse_date u (mk_time 23 59 59) = Ok (ud, ug) →
  match ug with
  | DayGranularity => timeofday_of ud = mk_time 23 59 59
  | SecondGranularity => True
  end ∧
  _parse_from_and_until None (Some u) = Ok (None, Some ud) ∧
  ∀ (f : string) (fd : datetime) (fg : granularity),
    util.parse_date f util.midnight = Ok (fd, fg) →
    _parse_from_and_until (Some f) (Some u) = from_until_outcome fd ud fg ug.
Proof.
  intros Hu. split; [|split].
  - destruct ug; [|done]. by eapply parse_date_day_default.
  - unfold _parse_from_and_until, parse_or_BadArgument.
    by rewrite Hu.
  - intros f fd fg Hf.
    unfold _parse_from_and_until, parse_or_BadArgument, from_until_outcome.
    rewrite Hf, Hu. cbn [bind fst snd].
    repeat case_bool_decide; simplify_eq; cbn [negb]; done.
Qed.

(** ** The JSON codec *)

Import pyjson.

Lemma parse_string_escape_char c tail :
  parse_string (escape_char c ++ tail) =
  match parse_string tail with
  | Some (s, rest) => Some (String c s, rest)
  | None => None
  end.
Proof.
  destruct c as [[] [] [] [] [] [] [] []]; reflexivity.
Qed.

Lemma parse_string_escape s rest :
  parse_string (escape s ++ quote :: rest) = Some (s, rest).
Proof.
  induction s as [|c s IH]; [reflexivity|].
  cbn [escape]. rewrite <- app_assoc, parse_string_escape_char. by rewrite IH.
Qed.

Lemma clean_app a b : clean a → clean b → clean (a ++ b).
Proof. apply Forall_app_2. Qed.

Lemma clean_escape_char c : clean (escape_char c).
Proof.
  destruct c as [[] [] [] [] [] [] [] []]; by repeat constructor.
Qed.

Lemma clean_escape s : clean (escape s).
Proof.
  induction s as [|c s IH]; [constructor|].
  cbn [escape]. apply clean_app; [apply clean_escape_char|done].
Qed.

Lemma clean_dumps_string s : clean (dumps_string s).
Proof.
  unfold dumps_string.
  apply clean_app; [by repeat constructor|].
  apply clean_app; [apply clean_escape|by repeat constructor].
Qed.

Lemma clean_no_illegal_chars cs :
  clean cs → util.contains_illegal_chars (string_of_list_ascii cs) = false.
Proof.
  unfold util.contains_illegal_chars.
  induction 1 as [|c cs Hc _ IH]; [done|]. cbn. by rewrite Hc, IH.
Qed.

Lemma dumps_chars_object d :
  dumps_chars (JObject d) = ["{"%char] ++ members_chars d ++ ["}"%char].
Proof. reflexivity. Qed.

Lemma clean_value v : clean (dumps_chars (json_of_value v)).
Proof.
  destruct v as [s|]; [apply clean_dumps_string|by repeat constructor].
Qed.

Lemma clean_members (d : list (string * option string)) :
  clean (members_chars (prod_map id json_of_value <$> d)).
Proof.
  induction d as [|[k v] d IH]; [constructor|].
  cbn [fmap list_fmap prod_map fst snd id members_chars].
  fold (fmap (M:=list) (prod_map id json_of_value) d).
  apply clean_app; [apply clean_dumps_string|].
  apply clean_app; [by repeat constructor|].
  destruct d as [|kv d]; [apply clean_value|].
  apply clean_app; [apply clean_value|].
  apply clean_app; [by repeat constructor|exact IH].
Qed.

(** [json.dumps] writes no control character. *)
Lemma dumps_clean (d : list (string * option string)) :
  util.contains_illegal_chars (dumps (json_of_dict d)) = false.
Proof.
  unfold dumps, json_of_dict. apply clean_no_illegal_chars.
  rewrite dumps_chars_object.
  apply clean_app; [by repeat constructor|].
  apply clean_app; [apply clean_members|by repeat constructor].
Qed.

Lemma parse_value_flat f (v : option string) rest :
  parse_value (S f) (" "%char :: dumps_chars (json_of_value v) ++ rest) =
  Some (json_of_value v, rest).
Proof.
  destruct v as [s|]; [|reflexivity].
  cbn [json_of_value dumps_chars]. unfold dumps_string.
  cbn [parse_value skip_ws]. change (is_ws " ") with true. cbn [skip_ws app].
  change (is_ws quote) with false. cbv iota.
  change (Ascii.eqb quote quote) with true. cbv iota.
  rewrite <- app_assoc. cbn [app]. by rewrite parse_string_escape.
Qed.

Lemma parse_members_space f cs acc :
  parse_members f (" "%char :: cs) acc = parse_members f cs acc.
Proof. by destruct f. Qed.

Lemma parse_members_flat (d : list (string * option string)) :
  ∀ acc f tail,
    d ≠ [] → (length d ≤ f)%nat →
    parse_members (S f) (members_chars (flat d) ++ "}"%char :: tail) acc =
    Some (JObject (fold_left (λ a kv, dict_set kv.1 kv.2 a) (flat d) acc),
          tail).
Proof.
  induction d as [|[k v] d IH]; intros acc f tail Hne Hlen; [done|].
  unfold flat. cbn [fmap list_fmap prod_map fst snd id members_chars].
  fold (fmap (M:=list) (prod_map id json_of_value) d). fold (flat d).
  unfold dumps_string at 1.
  cbn [parse_members app skip_ws].
  change (is_ws quote) with false. cbv iota.
  change (Ascii.eqb quote quote) with true. cbn [negb].
  rewrite <- !app_assoc. cbn [app]. rewrite parse_string_escape.
  cbn [list_ascii_of_string app skip_ws]. change (is_ws ":") with false.
  cbv iota. change (Ascii.eqb ":" ":") with true. cbn [negb].
  destruct f as [|f]; [cbn in Hlen; lia|].
  destruct d as [|kv d].
  - cbn [flat fmap list_fmap]. rewrite parse_value_flat.
    reflexivity.
  - assert (flat (kv :: d) = prod_map id json_of_value kv :: flat d) as Hflat
      by reflexivity.
    rewrite Hflat.
    rewrite <- !app_assoc. rewrite parse_value_flat.
    cbn [list_ascii_of_string app skip_ws]. change (is_ws ",") with false.
    cbv iota. change (Ascii.eqb "," ",") with true. cbv iota.
    rewrite parse_members_space. rewrite <- Hflat.
    rewrite (IH (dict_set k (json_of_value v) acc) f tail);
      [reflexivity|done|cbn in Hlen |- *; lia].
Qed.

Lemma dict_set_fresh {V} k (v : V) (acc : list (string * V)) :
  k ∉ acc.*1 → dict_set k v acc = acc ++ [(k, v)].
Proof.
  induction acc as [|[k' v'] acc IH]; [done|].
  cbn [fmap list_fmap fst dict_set app]. intros Hk.
  apply not_elem_of_cons in Hk as [Hne Hk].
  destruct (decide (k' = k)); [done|]. by rewrite IH.
Qed.

Lemma fold_dict_set_fresh {V} (d acc : list (string * V)) :
  NoDup (acc.*1 ++ d.*1) →
  fold_left (λ a kv, dict_set kv.1 kv.2 a) d acc = acc ++ d.
Proof.
  revert acc. induction d as [|[k v] d IH]; intros acc Hnd.
  - by rewrite app_nil_r.
  - cbn [fold_left fst snd]. cbn [fmap list_fmap fst] in Hnd.
    rewrite dict_set_fresh.
    + rewrite IH; [by rewrite <- app_assoc|].
      rewrite fmap_app. cbn [fmap list_fmap fst]. by rewrite <- app_assoc.
    + apply NoDup_app in Hnd as (_ & Hdisj & _). intros Hk.
      apply (Hdisj k Hk). left.
Qed.

Lemma flat_keys d : (flat d).*1 = d.*1.
Proof.
  unfold flat. rewrite <- list_fmap_compose. apply list_fmap_ext.
  by intros _ [k v] _.
Qed.

Lemma members_chars_cons k x y d :
  members_chars ((k, x) :: y :: d) =
  dumps_string k ++ list_ascii_of_string ": " ++ dumps_chars x ++
  list_ascii_of_string ", " ++ members_chars (y :: d).
Proof. reflexivity. Qed.

Lemma members_chars_length d :
  (length d ≤ length (members_chars (flat d)))%nat.
Proof.
  induction d as [|[k v] [|kv d] IH]; [done|cbn; lia|].
  change (flat ((k, v) :: kv :: d))
    with ((k, json_of_value v) :: prod_map id json_of_value kv :: flat d).
  change (flat (kv :: d)) with (prod_map id json_of_value kv :: flat d) in IH.
  rewrite members_chars_cons, !length_app.
  assert (1 ≤ length (dumps_string k))%nat by (cbn; lia).
  cbn [length] in IH |- *. lia.
Qed.

(** [json.loads] gives back the object [json.dumps] wrote for the fields of
    a token. *)
Lemma loads_dumps (d : list (string * option string)) :
  NoDup d.*1 → loads (dumps (json_of_dict d)) = Ok (json_of_dict d).
Proof.
  intros Hnd. unfold loads, dumps, json_of_dict.
  rewrite list_ascii_of_string_of_list_ascii.
  fold (flat d). rewrite dumps_chars_object.
  destruct d as [|kv d]; [reflexivity|].
  set (cs := ["{"%char] ++ members_chars (flat (kv :: d)) ++ ["}"%char]).
  assert (∃ f, (2 * length cs + 2)%nat = S (S f) ∧ (length (kv :: d) ≤ f)%nat)
    as (f & -> & Hf).
  { exists (2 * length cs)%nat. split; [lia|].
    pose proof (members_chars_length (kv :: d)) as Hlen.
    subst cs. rewrite !length_app. cbn [length] in Hlen |- *. lia. }
  subst cs. cbn [app parse_value skip_ws].
  change (is_ws "{") with false. cbv iota.
  change (Ascii.eqb "{" quote) with false.
  change (Ascii.eqb "{" "[") with false.
  change (Ascii.eqb "{" "{") with true. cbv iota.
  assert (∃ rest, members_chars (flat (kv :: d)) = quote :: rest)
    as [rest Hrest].
  { destruct kv as [k v]. eexists. unfold flat.
    cbn [fmap list_fmap prod_map fst snd id members_chars].
    unfold dumps_string. cbn [app]. reflexivity. }
  rewrite Hrest at 1. cbn [app skip_ws].
  change (is_ws quote) with false. cbv iota.
  change (Ascii.eqb quote "}") with false. cbv iota.
  rewrite (parse_members_flat (kv :: d) [] f []) by done.
  cbn [skip_ws]. rewrite fold_dict_set_fresh; [done|].
  cbn [fmap list_fmap app]. by rewrite flat_keys.
Qed.

(** ** The views *)

Lemma check_types_of_dict d :
  check_types (prod_map id json_of_value <$> d) = Ok d.
Proof.
  induction d as [|[k [s|]] d IH]; [done|..];
    cbn [fmap list_fmap prod_map check_types json_of_value fst snd id];
    fold (fmap (M:=list) (prod_map id json_of_value) d);
    by rewrite IH.
Qed.

Lemma removelast_take {A} (l : list A) :
  removelast l = take (length l - 1) l.
Proof.
  induction l as [|x [|y l] IH]; [done..|].
  change (removelast (x :: y :: l)) with (x :: removelast (y :: l)).
  rewrite IH. cbn. by rewrite Nat.sub_0_r.
Qed.

Lemma last_lookup_pred {A} (l : list A) : last l = l !! (length l - 1)%nat.
Proof. rewrite last_lookup. f_equal. lia. Qed.

Section views_facts.

Variable json_dumps : json → string.
Variable json_loads : string → result json.

Lemma get_resumption_token_carried m request token :
  carries_token json_loads request token →
  _get_resumption_token json_loads m request =
  (_check_resumption_token_date m token ;;! Ok (Some token)).
Proof.
  intros [[Hin Hcheck] (value & d & Hvalue & Hloads & Htypes & Hverb)].
  unfold _get_resumption_token.
  rewrite Hin, Hcheck, Hvalue. cbn [negb bind except_all py_str].
  rewrite Hloads. cbn [bind except_all]. rewrite Htypes, Hverb. cbn [bind].
  by rewrite bool_decide_eq_true_2.
Qed.

Lemma check_resumption_token_date_expired m token :
  expired m token →
  _check_resumption_token_date m token = raise ExpiredResumptionToken.
Proof.
  intros (s & date & g & latest & Hs & Hparse & Hlatest & Hge).
  unfold _check_resumption_token_date, getitem.
  rewrite Hs. cbn [bind]. rewrite Hparse. cbn [bind except_all fst].
  by rewrite Hlatest, Hge.
Qed.

(** C2, amended: when a request carries nothing but its verb and a
    resumption token, the token decodes to string-or-null fields that name
    the verb of the request, and its date parses but is not later than the
    [Datestamp] of the store, then decoding the token raises
    [ExpiredResumptionToken], and the ListIdentifiers/ListRecords handler
    lets that same [ExpiredResumptionToken] through to its caller; its code
    is [badResumptionToken], as for [InvalidResumptionToken]. *)
Theorem expired_token_surfaces_as_expired (m : models) (request : Request)
    (token : list (string * option string)) :
  carries_token json_loads request token →
  expired m token →
  _get_resumption_token json_loads m request = raise ExpiredResumptionToken ∧
  handle_list_items json_dumps json_loads m request =
    raise ExpiredResumptionToken ∧
  code ExpiredResumptionToken = code InvalidResumptionToken.
Proof.
  intros Hcarries Hexpired.
  assert (_get_resumption_token json_loads m request =
          raise ExpiredResumptionToken) as Htoken.
  { rewrite (get_resumption_token_carried _ _ _ Hcarries).
    by rewrite (check_resumption_token_date_expired _ _ Hexpired). }
  split; [done|]. split; [|done].
  unfold handle_list_items. by rewrite Htoken.
Qed.

Lemma check_resumption_token_date_raises m token :
  _check_resumption_token_date m token = Ok () ∨
  _check_resumption_token_date m token = raise InvalidResumptionToken ∨
  _check_resumption_token_date m token = raise ExpiredResumptionToken.
Proof.
  unfold _check_resumption_token_date.
  destruct (except_all _ _) as [date|e] eqn:E; cbn [bind].
  - destruct (Datestamp_get m) as [latest|]; [|by left].
    destruct (datetime_geb latest date); auto.
  - right; left. unfold except_all in E.
    destruct (bind _ _); [done|]. by injection E as <-.
Qed.

Lemma getitem_contains name items :
  contains name (MultiDict items) = true →
  ∃ v, getitem name (MultiDict items) = Ok (Some v).
Proof.
  intros Hin%bool_decide_eq_true. cbn [keys] in Hin.
  apply list_elem_of_fmap in Hin as [[k v] [-> Hin]].
  unfold getitem, getall.
  assert ((k, v) ∈ filter (λ kv : string * string, kv.1 = k) items) as Hf
    by (by apply list_elem_of_filter).
  destruct (last (snd <$> filter _ items)) as [x|] eqn:E; [by exists x|].
  apply last_None in E. destruct (filter _ items); [by inversion Hf|done].
Qed.

Lemma check_params_contains_verb p required allowed :
  _check_params p required allowed = Ok () → contains "verb" p = true.
Proof. unfold _check_params. by destruct (contains "verb" p). Qed.

Lemma getitem_verb_checked items required allowed :
  _check_params (MultiDict items) required allowed = Ok () →
  ∃ v, getitem "verb" (MultiDict items) = Ok (Some v).
Proof. intros H. by eapply getitem_contains, check_params_contains_verb. Qed.

(** C7, amended: a ListSets request that holds a resumption token and
    nothing [_get_resumption_token] objects to beside it (every name is the
    verb or the token, given once, free of illegal characters) fails with
    [InvalidResumptionToken], whatever the token decodes to, also when it is
    well formed but expired. *)
Theorem list_sets_rejects_token (m : models) (request : Request) :
  only_token request →
  handle_list_sets json_loads m request = raise InvalidResumptionToken.
Proof.
  intros [Hin Hcheck]. unfold handle_list_sets, _get_resumption_token.
  rewrite Hin, Hcheck. cbn [negb bind].
  destruct (except_all _ _) as [parsed|e] eqn:E; cbn [bind].
  2:{ unfold except_all in E. destruct (bind _ _); [done|].
      by injection E as <-. }
  destruct parsed as [| | | | |d]; try done.
  destruct (check_types d) as [token|e] eqn:Htypes; cbn [bind].
  2:{ assert (e = Oai InvalidResumptionToken) as ->; [|done].
      clear -Htypes. revert e Htypes.
      induction d as [|[k v] d IH]; intros e He; [done|].
      cbn [check_types] in He.
      destruct v; try (by injection He as <-);
        (destruct (check_types d); [done|]; cbn in He; injection He as <-;
         by apply IH). }
  destruct (getitem "verb" _) as [verb|e] eqn:Hverb; cbn [bind].
  2:{ destruct (getitem_verb_checked _ _ _ Hcheck) as [v Hv]. congruence. }
  case_bool_decide as Hv; [|done].
  destruct (check_resumption_token_date_raises m token) as [H|[H|H]];
    rewrite H; cbn [bind]; try done.
  destruct token as [|kv token]; [|done].
  exfalso. cbn in Hv. subst verb.
  destruct (getitem_verb_checked _ _ _ Hcheck) as [v Hv]. congruence.
Qed.

Lemma get_metadata_prefix_getitem m p ign prefix :
  _get_metadata_prefix m p ign = Ok prefix →
  getitem "metadataPrefix" p = Ok prefix.
Proof.
  unfold _get_metadata_prefix.
  destruct (getitem "metadataPrefix" p) as [v|]; [|done]. cbn [bind].
  destruct (negb _); [|congruence].
  destruct (new_UnsupportedMetadataFormat v); done.
Qed.

Lemma get_records_fetched m p request prefix dates :
  _get_metadata_prefix m p (_get_ignore_deleted request) = Ok prefix →
  _parse_from_and_until (get "from" p) (get "until" p) = Ok dates →
  get "set" p = None ∨ Set_list m ≠ [] →
  let limit := item_list_limit request in
  let fetched := Record_list m (list_query request p prefix dates) in
  _get_records m p (_get_ignore_deleted request) limit =
    match last fetched with
    | None => raise NoRecordsMatch
    | Some next =>
        if bool_decide (Z.of_nat (length fetched) = limit + 1)%Z
        then Ok (removelast fetched, Some (identifier next))
        else Ok (fetched, None)
    end.
Proof.
  intros Hprefix Hdates Hset limit fetched. unfold _get_records.
  rewrite Hprefix, Hdates. cbn [bind].
  assert (bool_decide (get "set" p ≠ None) &&
          bool_decide (length (Set_list m) = 0%nat) = false) as ->; [|done].
  apply andb_false_iff. destruct Hset as [Hset|Hset].
  - left. apply bool_decide_eq_false. naive_solver.
  - right. apply bool_decide_eq_false. by destruct (Set_list m).
Qed.

(** C1, amended: for a ListIdentifiers/ListRecords request that passes
    validation, the handler asks for [limit + 1] records; when that many are
    returned it emits the first [limit] of them and a fresh resumption token
    whose offset is the identifier of the record after them, the first one
    not emitted; when fewer, but at least one, are returned it emits them all
    with an empty token if a resumption token had been supplied and no token
    otherwise. *)
Theorem list_items_lookahead (m : models) (request : Request)
    (token_params : option (list (string * option string)))
    (prefix : option string) (dates : option datetime * option datetime) :
  validated json_loads m request token_params prefix dates →
  let p := effective_params token_params request in
  let limit := item_list_limit request in
  let fetched := Record_list m (list_query request p prefix dates) in
  fetched ≠ [] →
  ∃ verb,
    getitem "verb" p = Ok verb ∧
    handle_list_items json_dumps json_loads m request =
    Ok (if bool_decide (Z.of_nat (length fetched) = limit + 1)%Z then
          {| records := take (Z.to_nat limit) fetched;
             token := Some (json_dumps (json_of_dict
               (token_fields verb prefix
                  (identifier <$> fetched !! Z.to_nat limit)
                  (time request) p))) |}
        else
          {| records := fetched;
             token := if supplied token_params then Some "" else None |}).
Proof.
  intros (Htoken & Hcheck & Hprefix & Hdates & Hset) p limit fetched Hne.
  assert (∃ verb, getitem "verb" p = Ok verb) as [verb Hverb].
  { apply check_params_contains_verb in Hcheck. fold p in Hcheck.
    unfold contains in Hcheck. apply bool_decide_eq_true in Hcheck.
    destruct p as [items|items].
    - destruct (getitem_contains "verb" items) as [v Hv]; [|by eauto].
      by apply bool_decide_eq_true.
    - unfold getitem. cbn [keys] in Hcheck.
      destruct (dict_lookup "verb" items) as [v|] eqn:E; [by eauto|].
      exfalso. clear -Hcheck E. induction items as [|[k v] items IH];
        [by inversion Hcheck|].
      cbn in E. destruct (decide (k = "verb")); [done|].
      apply elem_of_cons in Hcheck as [?|?]; [done|by apply IH]. }
  exists verb. split; [done|].
  unfold handle_list_items. rewrite Htoken. cbn [bind].
  fold (effective_params token_params request). fold p.
  assert (bool_decide (token_params ≠ None) = supplied token_params) as ->
    by (by destruct token_params).
  fold p in Hcheck, Hprefix, Hdates, Hset.
  rewrite Hcheck. cbn [bind].
  rewrite (get_records_fetched m p request prefix dates) by done.
  fold fetched. fold limit.
  destruct (last fetched) as [next|] eqn:Hlast.
  2:{ by apply last_None in Hlast. }
  case_bool_decide as Hlen.
  - unfold _create_resumption_token.
    rewrite Hverb, (get_metadata_prefix_getitem _ _ _ _ Hprefix). cbn [bind].
    rewrite removelast_take. rewrite last_lookup_pred in Hlast.
    replace (length fetched - 1)%nat with (Z.to_nat limit) in * by lia.
    rewrite Hlast. reflexivity.
  - by destruct token_params.
Qed.

(** C5, amended: when the validated parameters of a
    ListIdentifiers/ListRecords request match no record, the handler raises
    [NoRecordsMatch] if the request came without a resumption token, and
    [InvalidResumptionToken] if it replayed one. *)
Theorem list_items_no_records (m : models) (request : Request)
    (token_params : option (list (string * option string)))
    (prefix : option string) (dates : option datetime * option datetime) :
  validated json_loads m request token_params prefix dates →
  let p := effective_params token_params request in
  Record_list m (list_query request p prefix dates) = [] →
  handle_list_items json_dumps json_loads m request =
    raise (if supplied token_params
           then InvalidResumptionToken else NoRecordsMatch).
Proof.
  intros (Htoken & Hcheck & Hprefix & Hdates & Hset) p Hnone.
  unfold handle_list_items. rewrite Htoken. cbn [bind].
  fold (effective_params token_params request). fold p.
  fold p in Hcheck, Hprefix, Hdates, Hset.
  assert (bool_decide (token_params ≠ None) = supplied token_params) as ->
    by (by destruct token_params).
  rewrite Hcheck. cbn [bind].
  rewrite (get_records_fetched m p request prefix dates) by done.
  rewrite Hnone. by destruct token_params.
Qed.

(** The round trip of a token, for any [json] module that gives back the
    object it wrote and writes no control character. *)
Lemma token_round_trip_any_json m p (offset : string) (time : datetime)
    (verb : string) (prefix : option string) (request' : Request) :
  let fields := token_fields (Some verb) prefix (Some offset) time p in
  let encoded := json_dumps (json_of_dict fields) in
  getitem "verb" p = Ok (Some verb) →
  getitem "metadataPrefix" p = Ok prefix →
  valid_datetime time = true →
  (∀ latest, Datestamp_get m = Some latest → datetime_gtb time latest = true) →
  params request' = [("verb", verb); ("resumptionToken", encoded)] →
  util.contains_illegal_chars verb = false →
  util.contains_illegal_chars encoded = false →
  json_loads encoded = Ok (json_of_dict fields) →
  _create_resumption_token json_dumps p offset time = Ok encoded ∧
  _get_resumption_token json_loads m request' = Ok (Some fields).
Proof.
  intros fields encoded Hverb Hprefix Hvalid Hlater Hparams Hv Henc Hloads.
  split.
  { unfold _create_resumption_token. by rewrite Hverb, Hprefix. }
  rewrite (get_resumption_token_carried m request' fields).
  - unfold _check_resumption_token_date.
    change (getitem "date" (Dict fields))
      with (Ok (A:=option string) (Some (util.format_datestamp time))).
    cbn [bind]. rewrite parse_format_datestamp by done.
    cbn [bind except_all fst].
    destruct (Datestamp_get m) as [latest|] eqn:Hlatest; [|done].
    by rewrite (datetime_gtb_not_geb _ _ (Hlater _ eq_refl)).
  - unfold carries_token, only_token. rewrite Hparams.
    assert (getitem "resumptionToken"
              (MultiDict [("verb", verb); ("resumptionToken", encoded)]) =
            Ok (Some encoded)) as Hitem by reflexivity.
    assert (getitem "verb"
              (MultiDict [("verb", verb); ("resumptionToken", encoded)]) =
            Ok (Some verb)) as Hitem' by reflexivity.
    split; [split; [reflexivity|]|].
    + unfold _check_params.
      change (contains "verb" _) with true.
      change (has_getall _ && _) with false.
      cbn [negb keys fmap list_fmap fst check_names].
      change (bool_decide ("verb" = "verb")) with true.
      change (has_getall _ && _) with false.
      change (get "verb" _) with (Some verb).
      change (get "resumptionToken" _) with (Some encoded).
      change (bool_decide ("resumptionToken" ∈ ["resumptionToken"])) with true.
      rewrite orb_true_r. cbv beta iota. cbn [negb orb].
      rewrite Hv, Henc. reflexivity.
    + exists encoded, (prod_map id json_of_value <$> fields).
      split; [done|]. split; [exact Hloads|].
      split; [apply check_types_of_dict|done].
Qed.

End views_facts.


(** ** The harvest *)

Import harvest.

(** *** The order on strings *)

Lemma ascii_compare_refl c : Ascii.compare c c = Eq.
Proof. unfold Ascii.compare. apply N.compare_refl. Qed.

Lemma ascii_compare_lt_trans a b c :
  Ascii.compare a b = Lt → Ascii.compare b c = Lt → Ascii.compare a c = Lt.
Proof.
  unfold Ascii.compare. rewrite !N.compare_lt_iff. lia.
Qed.

#[local] Instance str_le_trans : Transitive str_le.
Proof.
  unfold str_le, String.leb. intros s1.
  induction s1 as [|c1 s1 IH]; intros [|c2 s2] [|c3 s3]; cbn; try done.
  destruct (Ascii.compare c1 c2) eqn:E12; [|clear IH|done];
    destruct (Ascii.compare c2 c3) eqn:E23; try done.
  - apply Ascii.compare_eq_iff in E12 as ->. rewrite E23. apply IH.
  - apply Ascii.compare_eq_iff in E12 as ->. by rewrite E23.
  - apply Ascii.compare_eq_iff in E23 as <-. by rewrite E12.
  - by rewrite (ascii_compare_lt_trans _ _ _ E12 E23).
Qed.

#[local] Instance str_le_total : Total str_le.
Proof. intros s1 s2. apply String.leb_total. Qed.

#[local] Instance by_spec_trans : Transitive by_spec.
Proof. intros a b c. unfold by_spec. apply str_le_trans. Qed.

#[local] Instance by_spec_total : Total by_spec.
Proof. intros a b. unfold by_spec. apply str_le_total. Qed.

Lemma compare_proper_prefix a c rest :
  String.compare a (a +:+ String c rest) = Lt.
Proof.
  induction a as [|x a IH]; [done|].
  change (String x a +:+ String c rest) with (String x (a +:+ String c rest)).
  cbn [String.compare]. by rewrite ascii_compare_refl.
Qed.

Lemma ancestor_not_le a b : ancestor a b → ¬ str_le b a.
Proof.
  intros [rest ->]. unfold str_le, String.leb.
  rewrite String.compare_antisym.
  change (":" +:+ rest) with (String ":" rest).
  by rewrite compare_proper_prefix.
Qed.

Lemma StronglySorted_lookup_lt {A} (R : relation A) l i j x y :
  StronglySorted R l → l !! i = Some x → l !! j = Some y → (i < j)%nat →
  R x y.
Proof.
  intros Hl. revert i j. induction Hl as [|z l Hl IH Hz]; intros i j; [done|].
  destruct i as [|i], j as [|j]; cbn [lookup list_lookup]; try lia.
  - intros [= ->] Hy _. rewrite Forall_forall in Hz.
    apply Hz. by eapply list_elem_of_lookup_2.
  - intros Hx Hy Hlt. apply (IH i j); [done..|lia].
Qed.

(** *** Positions in the calls *)

Lemma set_calls_lookup identifier sets n spec name :
  flat_map (set_calls identifier) sets !! n =
    Some (Set_create_or_update spec name) →
  ∃ k, n = (2 * k)%nat ∧ sets !! k = Some (spec, name).
Proof.
  revert n. induction sets as [|[s nm] sets IH]; intros n; [done|].
  cbn [flat_map set_calls app].
  destruct n as [|[|n]]; cbn [lookup list_lookup].
  - intros [= -> ->]. by exists 0%nat.
  - done.
  - intros (k & -> & Hk)%IH. exists (S k). split; [lia|done].
Qed.

(** C8: on a live run, whatever pairs the provider returned,
    [update_sets] looks the item up, clears its sets, then upserts each set
    and adds the item to it, going through the pairs in ascending order of
    their spec; no pair is lost or invented, and the set of an ancestor spec
    is created before the set of any of its descendants. *)
Theorem update_sets_ancestors_first (sets : list (string * string))
    (identifier : string) :
  ∃ sorted,
    update_sets sets identifier false =
      [Item_get identifier; clear_sets identifier] ++
      flat_map
        (λ '(spec, name),
           [Set_create_or_update spec name; add_to_set identifier spec])
        sorted ∧
    sorted ≡ₚ sets ∧
    StronglySorted by_spec sorted ∧
    ∀ i j a name_a b name_b,
      update_sets sets identifier false !! i =
        Some (Set_create_or_update a name_a) →
      update_sets sets identifier false !! j =
        Some (Set_create_or_update b name_b) →
      ancestor a b →
      (i < j)%nat.
Proof.
  exists (merge_sort by_spec sets).
  split; [done|]. split; [apply merge_sort_Permutation|].
  pose proof (StronglySorted_merge_sort by_spec sets) as Hsorted.
  split; [done|].
  intros i j a name_a b name_b Hi Hj Hanc.
  unfold update_sets in Hi, Hj.
  change (λ '(spec, name), _) with (set_calls identifier) in Hi, Hj.
  destruct i as [|[|i]]; [done..|]. destruct j as [|[|j]]; [done..|].
  cbn [app lookup list_lookup] in Hi, Hj.
  change (flat_map (set_calls identifier) (merge_sort by_spec sets) !! i =
          Some (Set_create_or_update a name_a)) in Hi.
  change (flat_map (set_calls identifier) (merge_sort by_spec sets) !! j =
          Some (Set_create_or_update b name_b)) in Hj.
  apply set_calls_lookup in Hi as (ki & -> & Hki).
  apply set_calls_lookup in Hj as (kj & -> & Hkj).
  destruct (decide (ki < kj)%nat) as [|Hge]; [lia|]. exfalso.
  apply (ancestor_not_le a b Hanc).
  destruct (decide (ki = kj)) as [->|Hne].
  - rewrite Hki in Hkj. injection Hkj as -> _.
    destruct (str_le_total b b); done.
  - assert (kj < ki)%nat as Hlt by lia.
    by apply (StronglySorted_lookup_lt by_spec _ kj ki
                (b, name_b) (a, name_a) Hsorted).
Qed.

(** *** update_items *)

Lemma convert_all_Str ids : convert_all (Str <$> ids) = inr ids.
Proof. induction ids as [|i ids IH]; [done|]. cbn. by rewrite IH. Qed.

Lemma times_called_app c l1 l2 :
  times_called c (l1 ++ l2) = (times_called c l1 + times_called c l2)%nat.
Proof. unfold times_called. by rewrite filter_app, length_app. Qed.

Lemma times_called_other c (l : list Call) :
  Forall (λ c', c' ≠ c) l → times_called c l = 0%nat.
Proof.
  intros H. unfold times_called.
  induction H as [|c' l Hc' _ IH]; [done|].
  rewrite filter_cons. by destruct (decide (c' = c)).
Qed.

Lemma times_called_upserts i (l : list string) :
  NoDup l →
  times_called (Item_create_or_update i) (Item_create_or_update <$> l) =
    if bool_decide (i ∈ l) then 1%nat else 0%nat.
Proof.
  unfold times_called. intros Hl. induction Hl as [|x l Hx _ IH]; [done|].
  cbn [fmap list_fmap]. rewrite filter_cons.
  fold (fmap (M:=list) Item_create_or_update l).
  destruct (decide (Item_create_or_update x = Item_create_or_update i))
    as [[= ->]|Hne].
  - cbn [length]. rewrite IH.
    rewrite (bool_decide_eq_false_2 (i ∈ l)) by done.
    by rewrite bool_decide_eq_true_2 by left.
  - rewrite IH. apply (f_equal (λ b : bool, if b then 1%nat else 0%nat)).
    apply bool_decide_ext. rewrite elem_of_cons.
    split; [by right|]. intros [->|?]; [by destruct Hne|done].
Qed.

(** C9: on a live run, whatever identifiers the provider lists, with or
    without duplicates, [update_items] calls [Item.create_or_update] exactly
    once for each distinct identifier (and for nothing else) and returns the
    set of the distinct identifiers. *)
Theorem update_items_once_each (ids old_items : list string) (purge : bool) :
  ∃ calls,
    update_items (Str <$> ids) old_items purge false =
      Done calls (list_to_set ids) ∧
    ∀ i, times_called (Item_create_or_update i) calls =
           if bool_decide (i ∈ ids) then 1%nat else 0%nat.
Proof.
  unfold update_items. rewrite convert_all_Str.
  eexists. split; [reflexivity|]. intros i.
  rewrite !times_called_app.
  rewrite times_called_upserts by apply NoDup_elements.
  rewrite !times_called_other;
    try (by repeat constructor);
    try (destruct purge; by repeat constructor);
    try (apply Forall_fmap, Forall_true; done).
  rewrite Nat.add_0_r. cbn [Nat.add].
  apply (f_equal (λ b : bool, if b then 1%nat else 0%nat)).
  apply bool_decide_ext. rewrite elem_of_elements. set_solver.
Qed.

(** The sequence of [TestUpdateItems.test_duplicate_identifiers]. *)
Example update_items_duplicates :
  update_items (Str <$> ["i2"; "i1"; "i3"; "i1"; "i1"; "i2"]) [] false false =
    Done
      [Item_list; Item_create_or_update "i3"; Item_create_or_update "i1";
       Item_create_or_update "i2"; commit;
       log "Removed 0 items and added 3 items."]
      {[ "i1"; "i2"; "i3" ]}.
Proof. by vm_compute. Qed.

(** The pairs of [TestUpdateSets.test_valid_sets]. *)
Example update_sets_valid_sets :
  update_sets [("a:b", "Set B"); ("a", "Set A"); ("a:b:c", "Set C")]
    "oai:example.org:item" false =
  [Item_get "oai:example.org:item"; clear_sets "oai:example.org:item";
   Set_create_or_update "a" "Set A"; add_to_set "oai:example.org:item" "a";
   Set_create_or_update "a:b" "Set B"; add_to_set "oai:example.org:item" "a:b";
   Set_create_or_update "a:b:c" "Set C";
   add_to_set "oai:example.org:item" "a:b:c"].
Proof. by vm_compute. Qed.

(** ** The properties on the small repository *)

Import example.

(** C1 in the words of the specification anchors the fresh token at the last
    emitted identifier.  With a limit of two and three matching records the handler
    emits the first two and a token; its offset is the identifier of the
    third record, not that of the second. *)
Lemma list_items_token_not_at_last_emitted :
  handle_list_items pyjson.dumps pyjson.loads store list_records =
    Ok {| records := [item "item1"; item "item2"];
          token := Some (pyjson.dumps (json_of_dict
            (token_fields (Some "ListRecords") (Some "oai_dc") (Some "item3")
               now (MultiDict (params list_records))))) |} ∧
  handle_list_items pyjson.dumps pyjson.loads store list_records ≠
    Ok {| records := [item "item1"; item "item2"];
          token := Some (pyjson.dumps (json_of_dict
            (token_fields (Some "ListRecords") (Some "oai_dc")
               (identifier <$> last [item "item1"; item "item2"])
               now (MultiDict (params list_records))))) |}.
Proof.
  split; [by vm_compute|]. intros H. vm_compute in H. discriminate H.
Qed.

Lemma list_items_lookahead_witness :
  validated pyjson.loads store list_records None (Some "oai_dc") (None, None) ∧
  ∃ verb,
    getitem "verb" (MultiDict (params list_records)) = Ok verb ∧
    handle_list_items pyjson.dumps pyjson.loads store list_records =
      Ok {| records := [item "item1"; item "item2"];
            token := Some (pyjson.dumps (json_of_dict
              (token_fields verb (Some "oai_dc") (Some "item3") now
                 (MultiDict (params list_records))))) |}.
Proof.
  assert (validated pyjson.loads store list_records None (Some "oai_dc")
            (None, None)) as Hvalid.
  { repeat split; try reflexivity. by left. }
  split; [exact Hvalid|].
  refine (list_items_lookahead pyjson.dumps pyjson.loads store list_records
            None (Some "oai_dc") (None, None) Hvalid _).
  discriminate.
Defined.

(** C2 in the words of the specification has an expired token surface as
    [InvalidResumptionToken] when it is replayed through ListIdentifiers.
    The token below is well formed, names the verb of the request and was
    issued at the very time of the last synchronisation; the handler does not
    answer with [InvalidResumptionToken]. *)
Lemma expired_token_not_reported_invalid :
  carries_token pyjson.loads resume_stale stale_token ∧
  expired store stale_token ∧
  handle_list_items pyjson.dumps pyjson.loads store resume_stale ≠
    raise InvalidResumptionToken.
Proof.
  split; [|split].
  - split; [split; reflexivity|].
    eexists _, _. repeat split; reflexivity.
  - eexists _, _, _, _. repeat split; reflexivity.
  - intros H. vm_compute in H. discriminate H.
Qed.

Lemma expired_token_surfaces_as_expired_witness :
  carries_token pyjson.loads resume_stale stale_token ∧
  expired store stale_token ∧
  _get_resumption_token pyjson.loads store resume_stale =
    raise ExpiredResumptionToken ∧
  handle_list_items pyjson.dumps pyjson.loads store resume_stale =
    raise ExpiredResumptionToken ∧
  code ExpiredResumptionToken = code InvalidResumptionToken.
Proof.
  assert (carries_token pyjson.loads resume_stale stale_token) as Hcarries.
  { split; [split; reflexivity|].
    eexists _, _. repeat split; reflexivity. }
  assert (expired store stale_token) as Hexpired.
  { eexists _, _, _, _. repeat split; reflexivity. }
  split; [exact Hcarries|]. split; [exact Hexpired|].
  exact (expired_token_surfaces_as_expired pyjson.dumps pyjson.loads store
           resume_stale stale_token Hcarries Hexpired).
Defined.


(** C5 in the words of the specification has [NoRecordsMatch] raised also
    when a resumption token is replayed.  The token below is valid and starts after the last
    record: the query finds nothing, and the handler does not answer with
    [NoRecordsMatch]. *)
Lemma no_records_with_token_not_NoRecordsMatch :
  validated pyjson.loads store resume_late (Some late_token) (Some "oai_dc")
    (None, None) ∧
  Record_list store
    (list_query resume_late (effective_params (Some late_token) resume_late)
       (Some "oai_dc") (None, None)) = [] ∧
  handle_list_items pyjson.dumps pyjson.loads store resume_late ≠
    raise NoRecordsMatch.
Proof.
  split; [|split].
  - repeat split; try reflexivity. by left.
  - reflexivity.
  - intros H. vm_compute in H. discriminate H.
Qed.

Lemma list_items_no_records_witness :
  validated pyjson.loads store list_records_from_2015 None (Some "oai_dc")
    (Some (mk_datetime 2015 1 1 0 0 0), None) ∧
  handle_list_items pyjson.dumps pyjson.loads store list_records_from_2015 =
    raise NoRecordsMatch.
Proof.
  assert (validated pyjson.loads store list_records_from_2015 None
            (Some "oai_dc") (Some (mk_datetime 2015 1 1 0 0 0), None))
    as Hvalid.
  { repeat split; try reflexivity. by left. }
  split; [exact Hvalid|].
  exact (list_items_no_records pyjson.dumps pyjson.loads store
           list_records_from_2015 None (Some "oai_dc")
           (Some (mk_datetime 2015 1 1 0 0 0), None) Hvalid eq_refl).
Defined.

Lemma parse_from_and_until_pair_witness :
  util.parse_date "2014-01-01" (mk_time 23 59 59) =
    Ok (mk_datetime 2014 1 1 23 59 59, DayGranularity) ∧
  timeofday_of (mk_datetime 2014 1 1 23 59 59) = mk_time 23 59 59 ∧
  _parse_from_and_until None (Some "2014-01-01") =
    Ok (None, Some (mk_datetime 2014 1 1 23 59 59)) ∧
  util.parse_date "2014-01-02" util.midnight =
    Ok (mk_datetime 2014 1 2 0 0 0, DayGranularity) ∧
  (∃ m, _parse_from_and_until (Some "2014-01-02") (Some "2014-01-01") =
          raise (BadArgument m)).
Proof.
  split; [reflexivity|].
  destruct (parse_from_and_until_pair "2014-01-01"
              (mk_datetime 2014 1 1 23 59 59) DayGranularity eq_refl)
    as (Htime & Halone & Hpair).
  split; [exact Htime|]. split; [exact Halone|]. split; [reflexivity|].
  eexists.
  exact (Hpair "2014-01-02" (mk_datetime 2014 1 2 0 0 0) DayGranularity
           eq_refl).
Defined.

(** C7 in the words of the specification has every ListSets request with a
    resumption token fail with [InvalidResumptionToken].  With one more argument beside the
    token the handler fails with [BadArgument] instead. *)
Lemma list_sets_token_and_more_is_BadArgument :
  contains "resumptionToken"
    (MultiDict (params list_sets_resume_and_more)) = true ∧
  handle_list_sets pyjson.loads store list_sets_resume_and_more =
    raise (BadArgument ("Illegal argument: " +:+ dq +:+ "set" +:+ dq)) ∧
  handle_list_sets pyjson.loads store list_sets_resume_and_more ≠
    raise InvalidResumptionToken.
Proof.
  split; [reflexivity|]. split; [reflexivity|].
  intros H. vm_compute in H. discriminate H.
Qed.

Lemma list_sets_rejects_token_witness :
  only_token list_sets_resume ∧
  handle_list_sets pyjson.loads store list_sets_resume =
    raise InvalidResumptionToken.
Proof.
  assert (only_token list_sets_resume) as Honly by (split; reflexivity).
  split; [exact Honly|].
  exact (list_sets_rejects_token pyjson.loads store list_sets_resume Honly).
Defined.

(** * More of the views *)

(** *** The validator, on any parameter set *)

Lemma check_names_accepts p required allowed names :
  check_names p required allowed names = Ok () →
  Forall (λ name, name_ok p required allowed name = true) names.
Proof.
  intros H.
  pose proof (check_names_verdict p required allowed names) as Hv.
  rewrite H in Hv. cbn in Hv.
  destruct (forallb _ names) eqn:E; [|done].
  apply Forall_forall. intros name Hname%list_elem_of_In.
  rewrite forallb_forall in E. by apply E.
Qed.

Lemma check_required_accepts p required :
  check_required p required = Ok () →
  Forall (λ name, name ∈ keys p) required.
Proof.
  intros H.
  pose proof (check_required_verdict p required) as Hv.
  rewrite H in Hv. cbn in Hv.
  destruct (forallb _ required) eqn:E; [|done].
  apply Forall_forall. intros name Hname%list_elem_of_In.
  rewrite forallb_forall in E. apply E in Hname.
  by apply bool_decide_eq_true in Hname.
Qed.

Lemma get_Some_in_keys name p value :
  get name p = Some value → name ∈ keys p.
Proof.
  unfold get, getitem. destruct p as [items|items]; cbn [keys].
  - unfold getall. destruct (last _) as [v|] eqn:E; [|done]. intros _.
    apply last_Some in E as [l E].
    assert (v ∈ snd <$> filter (λ kv : string * string, kv.1 = name) items)
      as Hv by (rewrite E; apply elem_of_app; right; left).
    apply list_elem_of_fmap in Hv as [[k v'] [_ [Hk Hin]%list_elem_of_filter]].
    cbn in Hk. subst k. apply list_elem_of_fmap. by exists (name, v').
  - induction items as [|[k v] items IH]; [done|]. cbn [dict_lookup].
    destruct (decide (k = name)) as [->|Hne]; [intros _; left|].
    intros H. right. by apply IH.
Qed.

Lemma check_params_inv (p : Params) (required allowed : list string) :
  _check_params p required allowed = Ok () →
  "verb" ∈ keys p ∧
  (∀ name, name ∈ keys p →
     name = "verb" ∨ name ∈ allowed ∨ name ∈ required) ∧
  (∀ name, name ∈ required → name ∈ keys p) ∧
  (∀ name value, get name p = Some value →
     util.contains_illegal_chars value = false) ∧
  (has_getall p = true → ∀ name, (length (getall name p) ≤ 1)%nat).
Proof.
  intros H. pose proof (check_params_contains_verb _ _ _ H) as Hverb.
  unfold _check_params in H. rewrite Hverb in H. cbn [negb] in H.
  destruct (has_getall p && _) eqn:Hrep; [done|].
  destruct (check_names p required allowed (keys p)) as [[]|e] eqn:Hnames;
    [|done].
  cbn [bind] in H.
  apply check_names_accepts in Hnames. apply check_required_accepts in H.
  rewrite Forall_forall in Hnames, H.
  split; [by apply bool_decide_eq_true in Hverb|].
  split; [|split; [|split]].
  - intros name Hname%Hnames. unfold name_ok in Hname.
    apply andb_true_iff in Hname as [[Hexp _]%andb_true_iff _].
    rewrite !orb_true_iff, !bool_decide_eq_true in Hexp. tauto.
  - exact H.
  - intros name value Hget.
    pose proof (get_Some_in_keys _ _ _ Hget) as Hname%Hnames.
    unfold name_ok in Hname. apply andb_true_iff in Hname as [_ Hclean].
    rewrite Hget in Hclean. by apply negb_true_iff.
  - intros Hmulti name. destruct p as [items|]; [|done].
    destruct (decide (name ∈ keys (MultiDict items))) as [Hname|Hname].
    + apply Hnames in Hname. unfold name_ok in Hname.
      apply andb_true_iff in Hname as [[_ Hone%negb_true_iff]%andb_true_iff _].
      cbn [has_getall andb] in Hone. apply bool_decide_eq_false in Hone. lia.
    + unfold getall. rewrite length_fmap.
      destruct (filter _ items) as [|[k v] l] eqn:E; [cbn; lia|].
      exfalso. apply Hname. cbn [keys].
      assert ((k, v) ∈ filter (λ kv : string * string, kv.1 = name) items)
        as [Hk Hin]%list_elem_of_filter by (rewrite E; left).
      cbn in Hk. subst k. apply list_elem_of_fmap. by exists (name, v).
Qed.

Lemma check_names_raises p required allowed names :
  check_names p required allowed names = Ok () ∨
  ∃ m, check_names p required allowed names = raise (BadArgument m).
Proof.
  pose proof (check_names_verdict p required allowed names) as H.
  destruct (check_names _ _ _ _) as [[]|[[]|]]; cbn in H;
    destruct (forallb _ _); try done; eauto.
Qed.

Lemma check_required_raises p required :
  check_required p required = Ok () ∨
  ∃ m, check_required p required = raise (BadArgument m).
Proof.
  pose proof (check_required_verdict p required) as H.
  destruct (check_required _ _) as [[]|[[]|]]; cbn in H;
    destruct (forallb _ _); try done; eauto.
Qed.

Lemma check_params_cases (p : Params) (required allowed : list string) :
  _check_params p required allowed = Ok () ∨
  _check_params p required allowed = raise MissingVerb ∨
  (has_getall p = true ∧
   _check_params p required allowed = raise RepeatedVerb) ∨
  ∃ m, _check_params p required allowed = raise (BadArgument m).
Proof.
  unfold _check_params.
  destruct (contains "verb" p); cbn [negb]; [|by auto].
  destruct (has_getall p && _) eqn:Hrep.
  { apply andb_true_iff in Hrep as [-> _]. auto. }
  destruct (check_names_raises p required allowed (keys p)) as [->|[m ->]];
    [|by eauto 6].
  cbn [bind].
  destruct (check_required_raises p required) as [->|[m ->]]; eauto 6.
Qed.

(** X1: when [_check_params] accepts a parameter set, a multidict or a
    parsed token, the verb is among its names, every name is the verb or an
    allowed or required one, every required name is there, no value that
    [get] returns holds an illegal character, and on a multidict no name
    comes twice. *)
Theorem check_params_accepts (p : Params) (required allowed : list string) :
  _check_params p required allowed = Ok () →
  "verb" ∈ keys p ∧
  (∀ name, name ∈ keys p →
     name = "verb" ∨ name ∈ allowed ∨ name ∈ required) ∧
  (∀ name, name ∈ required → name ∈ keys p) ∧
  (∀ name value, get name p = Some value →
     util.contains_illegal_chars value = false) ∧
  (has_getall p = true → ∀ name, (length (getall name p) ≤ 1)%nat).
Proof. apply check_params_inv. Qed.

(** X2: [_check_params] returns or raises [MissingVerb], [RepeatedVerb] or
    [BadArgument], never a built-in exception; [RepeatedVerb] only on a
    multidict. *)
Theorem check_params_raises (p : Params) (required allowed : list string) :
  _check_params p required allowed = Ok () ∨
  _check_params p required allowed = raise MissingVerb ∨
  (has_getall p = true ∧
   _check_params p required allowed = raise RepeatedVerb) ∨
  ∃ m, _check_params p required allowed = raise (BadArgument m).
Proof. apply check_params_cases. Qed.

Lemma check_types_raises d :
  (∃ token, check_types d = Ok token) ∨
  check_types d = raise InvalidResumptionToken.
Proof.
  induction d as [|[k v] d IH]; [left; by eexists|].
  cbn [check_types].
  destruct v; try (by right);
    (destruct IH as [[token ->] | ->]; [left; by eexists|by right]).
Qed.

Lemma except_all_raises {A} (m : result A) e :
  (∃ a, m = Ok a ∧ except_all m e = Ok a) ∨ except_all m e = raise e.
Proof. destruct m; [left; by eexists|by right]. Qed.

Lemma contains_iff name p : contains name p = true ↔ name ∈ keys p.
Proof. unfold contains. apply bool_decide_eq_true. Qed.

Section token_facts.

Variable json_dumps : json → string.
Variable json_loads : string → result json.

(** X4: [_get_resumption_token] returns [None] exactly when the request has
    no [resumptionToken] parameter: a token that is supplied is decoded or
    refused, never ignored. *)
Theorem get_resumption_token_none_iff (m : models) (request : Request) :
  _get_resumption_token json_loads m request = Ok None ↔
  "resumptionToken" ∉ (params request).*1.
Proof.
  unfold _get_resumption_token.
  destruct (contains "resumptionToken" _) eqn:Hin; cbn [negb].
  - apply contains_iff in Hin. cbn [keys] in Hin. split; [|done].
    intros H. exfalso.
    destruct (_check_params _ _ _) as [[]|]; [|done]. cbn [bind] in H.
    destruct (except_all _ _) as [parsed|]; [|done]. cbn [bind] in H.
    destruct parsed as [| | | | |d]; try done.
    destruct (check_types d) as [token|]; [|done]. cbn [bind] in H.
    destruct (getitem "verb" _) as [verb|]; [|done]. cbn [bind] in H.
    case_bool_decide; [|done].
    destruct (_check_resumption_token_date m token); done.
  - split; [|done]. intros _ Hc. apply not_true_iff_false in Hin.
    apply Hin, contains_iff. done.
Qed.

Lemma get_resumption_token_inv (m : models) (request : Request)
    (token : list (string * option string)) :
  _get_resumption_token json_loads m request = Ok (Some token) →
  carries_token json_loads request token ∧
  token ≠ [] ∧
  ∃ s date g,
    dict_lookup "date" token = Some (Some s) ∧
    util.parse_date s util.midnight = Ok (date, g) ∧
    ∀ latest, Datestamp_get m = Some latest →
              datetime_geb latest date = false.
Proof.
  unfold _get_resumption_token.
  destruct (contains "resumptionToken" _) eqn:Hin; cbn [negb]; [|done].
  destruct (_check_params _ _ _) as [[]|] eqn:Hcheck; [|done]. cbn [bind].
  destruct (getitem_contains _ _ Hin) as [value Hvalue].
  rewrite Hvalue. cbn [bind py_str].
  destruct (json_loads value) as [parsed|] eqn:Hloads; [|done].
  cbn [except_all bind].
  destruct parsed as [| | | | |d]; try done.
  destruct (check_types d) as [token'|] eqn:Htypes; [|done]. cbn [bind].
  destruct (getitem_verb_checked _ _ _ Hcheck) as [verb Hverb].
  rewrite Hverb. cbn [bind].
  case_bool_decide as Hv; [|done].
  destruct (_check_resumption_token_date m token') as [[]|] eqn:Hdate; [|done].
  cbn [bind]. intros [= ->].
  split; [|split].
  - split; [done|]. exists value, d. by rewrite Hv.
  - intros ->. done.
  - unfold _check_resumption_token_date, getitem in Hdate.
    destruct (dict_lookup "date" token) as [[s|]|]; try done.
    cbn [bind] in Hdate.
    destruct (util.parse_date s util.midnight) as [[date g]|] eqn:Hparse;
      [|done].
    cbn [bind except_all fst] in Hdate.
    exists s, date, g. split; [done|]. split; [done|].
    intros latest Hlatest. rewrite Hlatest in Hdate.
    by destruct (datetime_geb latest date).
Qed.

(** X6: whatever [json.loads] does with the token, [_get_resumption_token]
    returns or raises an error of code [badVerb], [badArgument] or
    [badResumptionToken]; no built-in exception gets out. *)
Theorem get_resumption_token_raises (m : models) (request : Request) :
  (∃ r, _get_resumption_token json_loads m request = Ok r) ∨
  ∃ e, _get_resumption_token json_loads m request = raise e ∧
       (code e = "badVerb" ∨ code e = "badArgument" ∨
        code e = "badResumptionToken").
Proof.
  unfold _get_resumption_token.
  destruct (contains "resumptionToken" _) eqn:Hin; cbn [negb];
    [|left; by eexists].
  destruct (check_params_cases (MultiDict (params request))
              ["resumptionToken"] []) as [Hc|[Hc|[[_ Hc]|[msg Hc]]]];
    rewrite Hc; cbn [bind]; try (right; eexists; split; [reflexivity|]; by auto).
  destruct (except_all_raises
              (bind (getitem "resumptionToken" (MultiDict (params request)))
                 (λ v, json_loads (py_str v)))
              InvalidResumptionToken) as [(parsed & _ & ->)| ->];
    [|right; eexists; split; [reflexivity|]; by auto].
  cbn [bind].
  destruct parsed as [| | | | |d];
    try (right; eexists; split; [reflexivity|]; by auto).
  destruct (check_types_raises d) as [[token ->] | ->];
    [|right; eexists; split; [reflexivity|]; by auto].
  cbn [bind].
  destruct (getitem_verb_checked _ _ _ Hc) as [verb ->]. cbn [bind].
  case_bool_decide; [|right; eexists; split; [reflexivity|]; by auto].
  destruct (check_resumption_token_date_raises m token) as [-> | [-> | ->]];
    cbn [bind]; [left; by eexists|..];
    right; eexists; (split; [reflexivity|]); by auto.
Qed.

(** X7: [resumptionToken] is an exclusive argument: with the verb given once
    and any other argument beside the token, decoding fails with
    [BadArgument], and the ListIdentifiers/ListRecords handler passes that
    [BadArgument] on. *)
Theorem token_with_other_argument (m : models) (request : Request)
    (name : string) :
  times_given "verb" (params request) = 1%nat →
  "resumptionToken" ∈ (params request).*1 →
  name ∈ (params request).*1 →
  name ≠ "verb" → name ≠ "resumptionToken" →
  ∃ msg,
    _get_resumption_token json_loads m request = raise (BadArgument msg) ∧
    handle_list_items json_dumps json_loads m request =
      raise (BadArgument msg).
Proof.
  intros Hverb Htoken Hname Hnv Hnt.
  assert (∃ msg, _check_params (MultiDict (params request))
                   ["resumptionToken"] [] = raise (BadArgument msg))
    as [msg Hcheck].
  { unfold _check_params. rewrite contains_times_given.
    cbn [has_getall andb]. rewrite times_given_length, Hverb.
    rewrite bool_decide_eq_true_2 by lia.
    rewrite bool_decide_eq_false_2 by lia. cbn [negb].
    pose proof (check_names_verdict (MultiDict (params request))
                  ["resumptionToken"] []
                  (keys (MultiDict (params request)))) as Hv.
    assert (forallb (name_ok (MultiDict (params request))
                       ["resumptionToken"] [])
              (keys (MultiDict (params request))) = false) as Hall.
    { apply not_true_iff_false. rewrite forallb_forall. intros Hall.
      specialize (Hall name). cbn [keys] in Hall.
      rewrite <- list_elem_of_In in Hall. specialize (Hall Hname).
      unfold name_ok in Hall.
      apply andb_true_iff in Hall as [[Hexp _]%andb_true_iff _].
      rewrite !orb_true_iff, !bool_decide_eq_true in Hexp.
      destruct Hexp as [[?|Hin]|Hin]; [done|by inversion Hin|].
      apply list_elem_of_singleton in Hin. done. }
    rewrite Hall in Hv.
    destruct (check_names _ _ _ _) as [[]|[[]|]]; try done. by eexists. }
  exists msg.
  assert (_get_resumption_token json_loads m request = raise (BadArgument msg))
    as Hget.
  { unfold _get_resumption_token.
    rewrite (proj2 (contains_iff "resumptionToken"
                      (MultiDict (params request)))) by done.
    cbn [negb]. by rewrite Hcheck. }
  split; [done|]. unfold handle_list_items. by rewrite Hget.
Qed.

(** X5: a token that [_get_resumption_token] returns came with nothing but
    the verb, is not empty, names the verb of the request, and holds a date
    that parses and is later than the [Datestamp] of the store, if there is
    one. *)
Theorem get_resumption_token_sound (m : models) (request : Request)
    (token : list (string * option string)) :
  _get_resumption_token json_loads m request = Ok (Some token) →
  carries_token json_loads request token ∧
  token ≠ [] ∧
  ∃ s date g,
    dict_lookup "date" token = Some (Some s) ∧
    util.parse_date s util.midnight = Ok (date, g) ∧
    ∀ latest, Datestamp_get m = Some latest →
              datetime_geb latest date = false.
Proof. apply get_resumption_token_inv. Qed.

End token_facts.

(** *** Date ranges *)

Lemma parse_date_cases s t :
  (∃ y m d, valid_date y m d = true ∧
            util.parse_date s t = Ok (combine y m d t, DayGranularity) ∧
            ∀ t', util.parse_date s t' = Ok (combine y m d t', DayGranularity)) ∨
  (∃ d, util.parse_date s t = Ok (d, SecondGranularity) ∧
        ∀ t', util.parse_date s t' = Ok (d, SecondGranularity)) ∨
  (∀ t', util.parse_date s t' = Raise (Py ValueError)).
Proof.
  unfold util.parse_date.
  destruct (list_ascii_of_string s) as [|y1 [|y2 [|y3 [|y4 [|s1 [|m1 [|m2 [|s2
    [|d1 [|d2 l]]]]]]]]]]; try (by right; right).
  destruct l as [|s3 l].
  - destruct (read_number [y1; y2; y3; y4]) as [y|]; [|by right; right].
    destruct (read_number [m1; m2]) as [m|]; [|by right; right].
    destruct (read_number [d1; d2]) as [d|]; [|by right; right].
    destruct (Ascii.eqb s1 "-" && Ascii.eqb s2 "-"); [|by right; right].
    cbn [andb]. destruct (valid_date y m d) eqn:Hv; [|by right; right].
    left. by exists y, m, d.
  - destruct l as [|h1 [|h2 [|s4 [|i1 [|i2 [|s5 [|c1 [|c2 [|s6 l]]]]]]]]];
      try (by right; right).
    destruct l; [|by right; right].
    destruct (read_number [y1; y2; y3; y4]) as [y|]; [|by right; right].
    destruct (read_number [m1; m2]) as [m|]; [|by right; right].
    destruct (read_number [d1; d2]) as [d|]; [|by right; right].
    destruct (read_number [h1; h2]) as [h|]; [|by right; right].
    destruct (read_number [i1; i2]) as [i|]; [|by right; right].
    destruct (read_number [c1; c2]) as [c|]; [|by right; right].
    destruct (_ && _); [|by right; right].
    right; left. by eexists.
Qed.

Lemma parse_or_BadArgument_cases s t message :
  (∃ r, util.parse_date s t = Ok r ∧ parse_or_BadArgument s t message = Ok r) ∨
  parse_or_BadArgument s t message = raise (new_BadArgument message).
Proof.
  unfold parse_or_BadArgument.
  destruct (parse_date_cases s t)
    as [(y & m & d & _ & -> & _) | [(d & -> & _) | ->]];
    [left; by eexists|left; by eexists|by right].
Qed.

Lemma parse_from_and_until_raises f u :
  (∃ dates, _parse_from_and_until f u = Ok dates) ∨
  ∃ msg, _parse_from_and_until f u = raise (BadArgument msg).
Proof.
  unfold _parse_from_and_until.
  destruct f as [f|]; cbn [bind];
    [destruct (parse_or_BadArgument_cases f util.midnight
                 ("Illegal " +:+ dq +:+ "from" +:+ dq +:+ " datestamp"))
       as [([fd fg] & _ & ->) | ->]; [|right; by eexists]|];
    cbn [bind fst snd];
    (destruct u as [u|]; cbn [bind];
     [destruct (parse_or_BadArgument_cases u (mk_time 23 59 59)
                  ("Illegal " +:+ dq +:+ "until" +:+ dq +:+ " datestamp"))
        as [([ud ug] & _ & ->) | ->]; [|right; by eexists]|];
     cbn [bind fst snd]; try (left; by eexists)).
  case_bool_decide; cbn [negb];
    [destruct (datetime_gtb fd ud); [right|left]; by eexists
    |right; by eexists].
Qed.

(** X9: when [_parse_from_and_until] returns, each date is there exactly
    when its argument was given, and [from] is not greater than [until]. *)
Theorem parse_from_and_until_range (f u : option string)
    (fd ud : option datetime) :
  _parse_from_and_until f u = Ok (fd, ud) →
  (fd = None ↔ f = None) ∧
  (ud = None ↔ u = None) ∧
  ∀ a b, fd = Some a → ud = Some b → datetime_gtb a b = false.
Proof.
  unfold _parse_from_and_until.
  destruct f as [f|]; cbn [bind];
    [destruct (parse_or_BadArgument_cases f util.midnight
                 ("Illegal " +:+ dq +:+ "from" +:+ dq +:+ " datestamp"))
       as [([fd' fg] & _ & ->) | ->]; [|done]|];
    cbn [bind fst snd];
    (destruct u as [u|]; cbn [bind];
     [destruct (parse_or_BadArgument_cases u (mk_time 23 59 59)
                  ("Illegal " +:+ dq +:+ "until" +:+ dq +:+ " datestamp"))
        as [([ud' ug] & _ & ->) | ->]; [|done]|];
     cbn [bind fst snd]);
    try (intros [= <- <-]; by repeat split).
  case_bool_decide; cbn [negb]; [|done].
  destruct (datetime_gtb fd' ud') eqn:Hgt; [done|].
  intros [= <- <-]. repeat split; try done.
  by intros a b [= <-] [= <-].
Qed.

Lemma datetime_compare_refl d : datetime_compare d d = Eq.
Proof. unfold datetime_compare. by rewrite !Nat.compare_refl. Qed.

(** X10: a [from] and an [until] that are the same datestamp are accepted:
    at day granularity the range runs from the start of that day to
    23:59:59, at second granularity it is that instant. *)
Theorem parse_from_and_until_same (s : string) (d : datetime)
    (g : granularity) :
  util.parse_date s util.midnight = Ok (d, g) →
  _parse_from_and_until (Some s) (Some s) =
    Ok (Some d,
        Some (match g with
              | DayGranularity =>
                  combine (year d) (month d) (day d) (mk_time 23 59 59)
              | SecondGranularity => d
              end)).
Proof.
  intros Hs. unfold _parse_from_and_until, parse_or_BadArgument.
  rewrite Hs. cbn [bind fst snd].
  destruct (parse_date_cases s util.midnight)
    as [(y & m & dd & _ & Hm & Hall) | [(d' & Hm & Hall) | Hall]].
  - rewrite Hm in Hs. injection Hs as <- <-.
    rewrite (Hall (mk_time 23 59 59)). cbn [bind fst snd].
    rewrite bool_decide_eq_true_2 by done. cbn [negb].
    assert (datetime_gtb (combine y m dd util.midnight)
              (combine y m dd (mk_time 23 59 59)) = false) as ->; [|done].
    unfold datetime_gtb, datetime_compare, combine.
    cbn [year month day hour minute second t_hour t_minute t_second
         util.midnight].
    by rewrite !Nat.compare_refl.
  - rewrite Hm in Hs. injection Hs as <- <-.
    rewrite (Hall (mk_time 23 59 59)). cbn [bind fst snd].
    rewrite bool_decide_eq_true_2 by done. cbn [negb].
    unfold datetime_gtb. by rewrite datetime_compare_refl.
  - by rewrite Hall in Hs.
Qed.

Lemma new_UnsupportedMetadataFormat_ok prefix :
  ∃ e, new_UnsupportedMetadataFormat prefix = Ok e.
Proof. eexists. reflexivity. Qed.

Lemma supplied_bool_decide {A} (o : option A) :
  bool_decide (o ≠ None) = supplied o.
Proof. by destruct o. Qed.

Lemma getitem_in_keys name p :
  name ∈ keys p → ∃ v, getitem name p = Ok v.
Proof.
  intros Hin. destruct p as [items|items].
  - destruct (getitem_contains name items) as [v Hv]; [|by eauto].
    by apply bool_decide_eq_true.
  - unfold getitem. cbn [keys] in Hin.
    destruct (dict_lookup name items) as [v|] eqn:E; [by eauto|].
    exfalso. induction items as [|[k v] items IH]; [by inversion Hin|].
    cbn in E. destruct (decide (k = name)); [done|].
    apply elem_of_cons in Hin as [?|?]; [done|by apply IH].
Qed.

Lemma get_records_inv m p ign limit records next :
  _get_records m p ign limit = Ok (records, next) →
  ∃ prefix dates,
    _get_metadata_prefix m p ign = Ok prefix ∧
    _parse_from_and_until (get "from" p) (get "until" p) = Ok dates ∧
    (get "set" p = None ∨ Set_list m ≠ []).
Proof.
  unfold _get_records.
  destruct (_get_metadata_prefix m p ign) as [prefix|]; [|done]. cbn [bind].
  destruct (_parse_from_and_until _ _) as [dates|]; [|done]. cbn [bind].
  destruct (bool_decide (get "set" p ≠ None) && _) eqn:Hset; [done|].
  intros _. exists prefix, dates. split; [done|]. split; [done|].
  apply andb_false_iff in Hset as [H%bool_decide_eq_false|H%bool_decide_eq_false].
  - left. by destruct (get "set" p); [exfalso; apply H|].
  - right. intros Hnil. apply H. by rewrite Hnil.
Qed.

Section list_facts.

Variable json_dumps : json → string.
Variable json_loads : string → result json.

(** Whatever is answered was validated, queried and found. *)
Lemma list_items_inv m request response :
  handle_list_items json_dumps json_loads m request = Ok response →
  ∃ token_params prefix dates,
    validated json_loads m request token_params prefix dates ∧
    let fetched :=
      Record_list m
        (list_query request (effective_params token_params request)
           prefix dates) in
    fetched ≠ [] ∧
    records response =
      (if bool_decide (Z.of_nat (length fetched) =
                       item_list_limit request + 1)%Z
       then removelast fetched else fetched) ∧
    (token response = None ↔
       token_params = None ∧
       Z.of_nat (length fetched) ≠ (item_list_limit request + 1)%Z).
Proof.
  unfold handle_list_items.
  destruct (_get_resumption_token json_loads m request)
    as [token_params|] eqn:Htoken; [|done].
  cbn [bind]. fold (effective_params token_params request).
  rewrite supplied_bool_decide.
  set (p := effective_params token_params request).
  destruct (_check_params p _ _) as [[]|e] eqn:Hcheck; cbn [bind].
  2:{ destruct e; [by destruct (supplied token_params)|done]. }
  destruct (_get_records m p _ _) as [[records next]|e] eqn:Hrecords.
  2:{ destruct e; [by destruct (supplied token_params)|done]. }
  destruct (get_records_inv _ _ _ _ _ _ Hrecords)
    as (prefix & dates & Hprefix & Hdates & Hset).
  rewrite (get_records_fetched m p request prefix dates) in Hrecords by done.
  intros Hresponse.
  exists token_params, prefix, dates. split; [by repeat split|].
  cbv zeta. fold p.
  destruct (last (Record_list m (list_query request p prefix dates)))
    as [r|] eqn:Hlast; [|done].
  split; [intros Hnil; by rewrite Hnil in Hlast|].
  case_bool_decide as Hlen.
  - injection Hrecords as <- <-.
    destruct (_create_resumption_token json_dumps p _ _) as [t|];
      [|done].
    cbn [bind] in Hresponse. injection Hresponse as <-. cbn.
    split; [done|]. split; [done|]. by intros [_ ?].
  - injection Hrecords as <- <-.
    destruct token_params as [tk|]; cbn [supplied] in Hresponse;
      injection Hresponse as <-; cbn.
    + split; [done|]. split; [done|]. by intros [? _].
    + done.
Qed.

(** X11: when the store returns no more records than the handler asks for,
    a response of the ListIdentifiers/ListRecords handler holds at most
    [item_list_limit] records, and holds none only when that limit is
    zero. *)
Theorem list_items_page_size (m : models) (request : Request)
    (response : ListItems) :
  (∀ q, q_limit q = Some (item_list_limit request + 1)%Z →
        (Z.of_nat (length (Record_list m q)) ≤ item_list_limit request + 1)%Z) →
  handle_list_items json_dumps json_loads m request = Ok response →
  (Z.of_nat (length (records response)) ≤ item_list_limit request)%Z ∧
  (records response = [] → item_list_limit request = 0%Z).
Proof.
  intros Hstore (token_params & prefix & dates & _ & Hne & Hrecords & _)
    %list_items_inv.
  cbv zeta in Hne, Hrecords.
  set (q := list_query request _ prefix dates) in *.
  pose proof (Hstore q eq_refl) as Hlen.
  assert (length (Record_list m q) ≠ 0%nat) as Hpos
    by (by destruct (Record_list m q)).
  rewrite Hrecords.
  case_bool_decide as Hfull.
  - rewrite removelast_take. split; [rewrite length_take; lia|].
    intros Hnil%(f_equal length). rewrite length_take in Hnil.
    cbn in Hnil. lia.
  - split; [lia|done].
Qed.

(** X12: a validated request without a resumption token queries the store
    without an offset: [offset] is not an argument a client can pass. *)
Theorem list_items_starts_without_offset (m : models) (request : Request)
    (prefix : option string) (dates : option datetime * option datetime) :
  validated json_loads m request None prefix dates →
  q_offset (list_query request (effective_params None request) prefix dates) =
    None.
Proof.
  intros (Htoken & Hcheck & _). cbn [supplied effective_params] in *.
  cbn [list_query q_offset].
  destruct (get "offset" (MultiDict (params request))) as [v|] eqn:Hget;
    [|done].
  apply get_Some_in_keys in Hget.
  apply check_params_inv in Hcheck as (_ & Hexp & _).
  destruct (Hexp _ Hget) as [?|[Hin|Hin]]; [done|..];
    repeat (apply elem_of_cons in Hin as [?|Hin]; [done|]);
    by inversion Hin.
Qed.

Lemma get_records_cases m p ign limit v :
  getitem "metadataPrefix" p = Ok v →
  (∃ records next, _get_records m p ign limit = Ok (records, next)) ∨
  ∃ e, _get_records m p ign limit = raise e.
Proof.
  intros Hv. unfold _get_records, _get_metadata_prefix. rewrite Hv.
  cbn [bind].
  destruct (Format_exists m v ign); cbn [negb].
  2:{ destruct (new_UnsupportedMetadataFormat_ok v) as [e ->]. right.
      by eexists. }
  cbn [bind].
  destruct (parse_from_and_until_raises (get "from" p) (get "until" p))
    as [[dates ->] | [msg ->]]; [|right; by eexists].
  cbn [bind]. destruct (_ && _); [right; by eexists|].
  destruct (last _); [|right; by eexists].
  case_bool_decide; left; by eexists _, _.
Qed.

(** X13: once a resumption token is decoded, the ListIdentifiers/ListRecords
    handler either answers, always with a token element, or raises
    [InvalidResumptionToken]; no other error gets out. *)
Theorem list_items_token_errors (m : models) (request : Request)
    (decoded : list (string * option string)) :
  _get_resumption_token json_loads m request = Ok (Some decoded) →
  (∃ response,
     handle_list_items json_dumps json_loads m request = Ok response ∧
     token response ≠ None) ∨
  handle_list_items json_dumps json_loads m request =
    raise InvalidResumptionToken.
Proof.
  intros Htoken.
  destruct (get_resumption_token_inv json_loads _ _ _ Htoken)
    as (_ & Hne & _).
  unfold handle_list_items. rewrite Htoken. cbn [bind].
  destruct decoded as [|kv decoded]; [done|].
  rewrite bool_decide_eq_true_2 by done.
  set (p := Dict (kv :: decoded)).
  destruct (check_params_cases p
              ["metadataPrefix"; "offset"; "date"; "from"; "until"; "set"] [])
    as [Hc | [Hc | [[_ Hc] | [msg Hc]]]]; rewrite Hc; cbn [bind];
    try (by right).
  apply check_params_inv in Hc as (Hverb & _ & Hreq & _).
  destruct (getitem_in_keys _ _ Hverb) as [verb Hverb'].
  destruct (getitem_in_keys "metadataPrefix" p) as [prefix Hprefix];
    [apply Hreq; left|].
  destruct (get_records_cases m p (_get_ignore_deleted request)
              (item_list_limit request) prefix Hprefix)
    as [(records & next & ->) | [e ->]]; [|by right].
  left. destruct next as [offset|].
  - unfold _create_resumption_token. rewrite Hverb', Hprefix. cbn [bind].
    by eexists.
  - by eexists.
Qed.

End list_facts.

Lemma is_digit_not_illegal c :
  is_digit c = true → util.is_illegal_char c = false.
Proof.
  unfold is_digit, util.is_illegal_char.
  intros [H1%Nat.leb_le _]%andb_true_iff.
  apply andb_false_iff. left. apply Nat.ltb_ge. lia.
Qed.

Lemma clean_digit_char n : clean [digit_char n].
Proof.
  repeat constructor. apply is_digit_not_illegal, digit_char_spec.
Qed.

Lemma format_datestamp_clean d :
  util.contains_illegal_chars (util.format_datestamp d) = false.
Proof.
  unfold util.format_datestamp. apply clean_no_illegal_chars.
  unfold pad4, pad2.
  repeat (apply Forall_cons; split;
          [first [apply is_digit_not_illegal, digit_char_spec | reflexivity]|]).
  constructor.
Qed.

Lemma check_names_all_ok p required allowed names :
  Forall (λ name, name_ok p required allowed name = true) names →
  check_names p required allowed names = Ok ().
Proof.
  intros H. pose proof (check_names_verdict p required allowed names) as Hv.
  assert (forallb (name_ok p required allowed) names = true) as Hall.
  { apply forallb_forall. intros name Hname%list_elem_of_In.
    rewrite Forall_forall in H. by apply H. }
  rewrite Hall in Hv.
  by destruct (check_names _ _ _ _) as [[]|[[]|]].
Qed.

Lemma check_required_all_ok p required :
  Forall (λ name, name ∈ keys p) required →
  check_required p required = Ok ().
Proof.
  intros H. pose proof (check_required_verdict p required) as Hv.
  assert (forallb (λ name, contains name p) required = true) as Hall.
  { apply forallb_forall. intros name Hname%list_elem_of_In.
    rewrite Forall_forall in H. by apply contains_iff, H. }
  rewrite Hall in Hv.
  by destruct (check_required _ _) as [[]|[[]|]].
Qed.

Lemma name_ok_dict d required name :
  name = "verb" ∨ name ∈ required →
  (∀ v, get name (Dict d) = Some v → util.contains_illegal_chars v = false) →
  name_ok (Dict d) required [] name = true.
Proof.
  intros Hexp Hclean. unfold name_ok. cbn [has_getall andb negb].
  rewrite andb_true_r. apply andb_true_iff. split.
  - rewrite !orb_true_iff, !bool_decide_eq_true. tauto.
  - destruct (get name (Dict d)) as [v|]; [|done].
    by rewrite Hclean.
Qed.

Lemma get_metadata_prefix_exists m p ign prefix :
  _get_metadata_prefix m p ign = Ok prefix →
  Format_exists m prefix ign = true.
Proof.
  unfold _get_metadata_prefix.
  destruct (getitem "metadataPrefix" p) as [v|]; [|done]. cbn [bind].
  destruct (Format_exists m v ign) eqn:E; cbn [negb]; [congruence|].
  by destruct (new_UnsupportedMetadataFormat v).
Qed.

Lemma getitem_get name p v : getitem name p = Ok v → get name p = v.
Proof. unfold get. by intros ->. Qed.

(** The token of a validated listing passes the checks of a replay. *)
Lemma token_fields_check p required allowed verb prefix offset time :
  _check_params p required allowed = Ok () →
  getitem "verb" p = Ok (Some verb) →
  getitem "metadataPrefix" p = Ok prefix →
  util.contains_illegal_chars offset = false →
  let fields := token_fields (Some verb) prefix (Some offset) time p in
  _check_params (Dict fields)
    ["metadataPrefix"; "offset"; "date"; "from"; "until"; "set"] [] = Ok ().
Proof.
  intros Hcheck Hverb Hprefix Hoffset fields.
  apply check_params_inv in Hcheck as (_ & _ & _ & Hclean & _).
  apply getitem_get in Hverb, Hprefix.
  unfold _check_params.
  change (contains "verb" (Dict fields)) with true.
  cbn [negb has_getall andb].
  rewrite check_names_all_ok; [cbn [bind]; apply check_required_all_ok|].
  - change (keys (Dict fields))
      with ["verb"; "metadataPrefix"; "offset"; "date"; "from"; "until"; "set"].
    repeat (apply Forall_cons; split; [set_solver|]). constructor.
  - change (keys (Dict fields))
      with ["verb"; "metadataPrefix"; "offset"; "date"; "from"; "until"; "set"].
    repeat (apply Forall_cons; split;
            [apply name_ok_dict; [set_solver|]|]); [..|constructor].
    + change (get "verb" (Dict fields)) with (Some verb).
      intros v [= <-]. by apply (Hclean "verb").
    + change (get "metadataPrefix" (Dict fields)) with prefix.
      intros v Hv. apply (Hclean "metadataPrefix"). by rewrite Hprefix.
    + change (get "offset" (Dict fields)) with (Some offset).
      by intros v [= <-].
    + change (get "date" (Dict fields))
        with (Some (util.format_datestamp time)).
      intros v [= <-]. apply format_datestamp_clean.
    + change (get "from" (Dict fields)) with (get "from" p).
      apply Hclean.
    + change (get "until" (Dict fields)) with (get "until" p).
      apply Hclean.
    + change (get "set" (Dict fields)) with (get "set" p).
      apply Hclean.
Qed.

(** X14: when a listing has more records than fit, the handler issues a
    token, and, on the same store, a request for the same verb that replays
    it is validated again with the same format and dates; its query is the
    first one with the offset set to the identifier of the first record that
    was not emitted.  This holds for whatever [json.dumps] and [json.loads]
    are, as long as, on the object of the token, [json.dumps] writes no
    control character and [json.loads] gives back the object that
    [json.dumps] wrote. *)
Theorem resumed_listing_continues (json_dumps : json → string)
    (json_loads : string → result json) (m : models) (request : Request)
    (token_params : option (list (string * option string)))
    (prefix : option string) (dates : option datetime * option datetime)
    (verb : string) (next : Record_) (request' : Request) :
  let p := effective_params token_params request in
  let query := list_query request p prefix dates in
  let fields :=
    token_fields (Some verb) prefix (Some (identifier next)) (time request)
      p in
  let encoded := json_dumps (json_of_dict fields) in
  validated json_loads m request token_params prefix dates →
  Z.of_nat (length (Record_list m query)) = (item_list_limit request + 1)%Z →
  last (Record_list m query) = Some next →
  getitem "verb" p = Ok (Some verb) →
  util.contains_illegal_chars (identifier next) = false →
  valid_datetime (time request) = true →
  (∀ latest, Datestamp_get m = Some latest →
             datetime_gtb (time request) latest = true) →
  params request' = [("verb", verb); ("resumptionToken", encoded)] →
  deleted_records request' = deleted_records request →
  util.contains_illegal_chars encoded = false →
  json_loads encoded = Ok (json_of_dict fields) →
  handle_list_items json_dumps json_loads m request =
    Ok {| records := removelast (Record_list m query);
          token := Some encoded |} ∧
  validated json_loads m request' (Some fields) prefix dates ∧
  list_query request' (effective_params (Some fields) request') prefix dates =
    {| q_identifier := q_identifier query;
       q_metadata_prefix := q_metadata_prefix query;
       q_from_date := q_from_date query;
       q_until_date := q_until_date query;
       q_set := q_set query;
       q_ignore_deleted := q_ignore_deleted query;
       q_offset := Some (identifier next);
       q_limit := Some (item_list_limit request' + 1)%Z |}.
Proof.
  intros p query fields encoded (Htoken & Hcheck & Hprefix & Hdates & Hset)
    Hfull Hlast Hverb Hclean Hvalid Hlater Hparams Hdeleted Henc Hloads.
  fold p in Hcheck, Hprefix, Hdates, Hset.
  pose proof (get_metadata_prefix_getitem _ _ _ _ Hprefix) as Hprefix'.
  assert (util.contains_illegal_chars verb = false) as Hverb_clean.
  { apply check_params_inv in Hcheck as (_ & _ & _ & Hc & _).
    apply (Hc "verb"). by apply getitem_get in Hverb. }
  assert (_get_ignore_deleted request' = _get_ignore_deleted request) as Hign
    by (unfold _get_ignore_deleted; by rewrite Hdeleted).
  split; [|split].
  - unfold handle_list_items. rewrite Htoken. cbn [bind].
    fold (effective_params token_params request). fold p.
    rewrite supplied_bool_decide, Hcheck. cbn [bind].
    rewrite (get_records_fetched m p request prefix dates) by done.
    fold query. rewrite Hlast, bool_decide_eq_true_2 by done.
    unfold _create_resumption_token. rewrite Hverb, Hprefix'. by cbn [bind].
  - assert (_get_resumption_token json_loads m request' =
            Ok (Some fields)) as Hdecoded.
    { by apply (token_round_trip_any_json json_dumps json_loads m p
                  (identifier next) (time request) verb prefix request'). }
    unfold validated.
    change (effective_params (Some fields) request') with (Dict fields).
    cbn [supplied]. rewrite Hign.
    split; [done|].
    split; [by apply (token_fields_check p _ _ verb prefix _ _ Hcheck)|].
    split; [|split].
    + unfold _get_metadata_prefix.
      change (getitem "metadataPrefix" (Dict fields)) with (Ok prefix).
      cbn [bind]. by rewrite (get_metadata_prefix_exists _ _ _ _ Hprefix).
    + exact Hdates.
    + exact Hset.
  - change (effective_params (Some fields) request') with (Dict fields).
    unfold list_query, query. rewrite Hign. reflexivity.
Qed.

(** *** Messages *)

Lemma filter_string_app p s1 s2 :
  filter_string p (s1 +:+ s2) = filter_string p s1 +:+ filter_string p s2.
Proof.
  induction s1 as [|c s1 IH]; [done|].
  change (String c s1 +:+ s2) with (String c (s1 +:+ s2)).
  cbn [filter_string]. rewrite IH. by destruct (p c).
Qed.

Lemma filter_illegal_chars_app s1 s2 :
  util.filter_illegal_chars (s1 +:+ s2) =
  util.filter_illegal_chars s1 +:+ util.filter_illegal_chars s2.
Proof. apply filter_string_app. Qed.


Lemma filter_illegal_chars_id s :
  util.contains_illegal_chars s = false → util.filter_illegal_chars s = s.
Proof.
  unfold util.contains_illegal_chars, util.filter_illegal_chars.
  induction s as [|c s IH]; [done|]. cbn.
  intros [-> Hs]%orb_false_iff. cbn. by rewrite IH.
Qed.

Lemma contains_illegal_chars_app s1 s2 :
  util.contains_illegal_chars (s1 +:+ s2) =
  util.contains_illegal_chars s1 || util.contains_illegal_chars s2.
Proof.
  unfold util.contains_illegal_chars.
  induction s1 as [|c s1 IH]; [done|].
  change (String c s1 +:+ s2) with (String c (s1 +:+ s2)).
  cbn [existsb_string]. by rewrite IH, orb_assoc.
Qed.

(** X17: the messages of [IdDoesNotExist], [UnsupportedMetadataFormat] and
    [UnavailableMetadataFormat] hold their arguments, stripped of illegal
    characters, in the places of the fields of their templates. *)
Theorem messages_name_arguments (prefix identifier : option string) :
  new_IdDoesNotExist identifier =
    Ok (IdDoesNotExist
          ("Identifier " +:+ dq +:+
           util.filter_illegal_chars (py_str identifier) +:+ dq +:+
           " does not exist.")) ∧
  new_UnsupportedMetadataFormat prefix =
    Ok (UnsupportedMetadataFormat
          ("Metadata format " +:+ dq +:+
           util.filter_illegal_chars (py_str prefix) +:+ dq +:+
           " is not supported by this repository.")) ∧
  new_UnavailableMetadataFormat prefix identifier =
    Ok (UnavailableMetadataFormat
          ("Metadata format " +:+ dq +:+
           util.filter_illegal_chars (py_str prefix) +:+ dq +:+
           " is not available for item " +:+ dq +:+
           util.filter_illegal_chars (py_str identifier) +:+ dq +:+ ".")).
Proof.
  unfold new_IdDoesNotExist, new_UnsupportedMetadataFormat,
    new_UnavailableMetadataFormat, str_format.
  repeat split.
  - change (format_from FText _ _)
      with (Ok ("Identifier " +:+ dq +:+ (py_str identifier +:+
                 (dq +:+ " does not exist.")))).
    cbn [bind]. do 2 f_equal.
    by rewrite !filter_illegal_chars_app.
  - change (format_from FText _ _)
      with (Ok ("Metadata format " +:+ dq +:+ (py_str prefix +:+
                 (dq +:+ " is not supported by this repository.")))).
    cbn [bind]. do 2 f_equal.
    by rewrite !filter_illegal_chars_app.
  - change (format_from FText _ _)
      with (Ok ("Metadata format " +:+ dq +:+ (py_str prefix +:+
                 (dq +:+ " is not available for item " +:+ dq +:+
                  (py_str identifier +:+ (dq +:+ "."))))) ).
    cbn [bind]. do 2 f_equal.
    by rewrite !filter_illegal_chars_app.
Qed.


(** *** The verbs without arguments *)

Lemma check_params_only_verb items :
  _check_params (MultiDict items) [] [] = Ok () ↔
  ∃ v, items = [("verb", v)] ∧ util.contains_illegal_chars v = false.
Proof.
  split.
  - intros (Hverb & Hexp & _ & Hclean & Hone)%check_params_inv.
    specialize (Hone eq_refl "verb"). cbn [keys] in Hverb, Hexp.
    assert (∀ kv, kv ∈ items → kv.1 = "verb") as Hall.
    { intros [k v] Hin. destruct (Hexp k) as [?|[H|H]]; [|done|..];
        [apply list_elem_of_fmap; by exists (k, v)|by inversion H..]. }
    unfold getall in Hone. rewrite length_fmap in Hone.
    assert (filter (λ kv : string * string, kv.1 = "verb") items = items)
      as Hfilter.
    { clear -Hall. induction items as [|kv items IH]; [done|].
      rewrite filter_cons, decide_True by (apply Hall; left).
      f_equal. apply IH. intros kv' Hin. apply Hall. by right. }
    rewrite Hfilter in Hone.
    destruct items as [|[k v] [|kv items]]; cbn in Hone; [|clear Hone|lia].
    { by inversion Hverb. }
    pose proof (Hall (k, v) ltac:(left)) as Hk. cbn in Hk. subst k.
    exists v. split; [done|]. by apply (Hclean "verb").
  - intros (v & -> & Hv). unfold _check_params.
    change (contains "verb" _) with true.
    change (has_getall _ && _) with false.
    cbn [negb keys fmap list_fmap fst check_names].
    change (bool_decide ("verb" = "verb")) with true.
    change (has_getall _ && _) with false.
    change (get "verb" _) with (Some v). cbv beta iota. cbn [negb orb].
    by rewrite Hv.
Qed.

(** X19: [handle_list_sets] answers exactly when the verb is the only
    argument and the repository has sets; the answer is the list of all
    sets, never an empty one. *)
Theorem list_sets_answer (json_loads : string → result json) (m : models)
    (request : Request) (sets : list Set_) :
  handle_list_sets json_loads m request = Ok sets ↔
  (∃ v, params request = [("verb", v)] ∧
        util.contains_illegal_chars v = false) ∧
  sets = Set_list m ∧ sets ≠ [].
Proof.
  split.
  - unfold handle_list_sets.
    destruct (_get_resumption_token json_loads m request)
      as [[[|kv token]|]|[[]|]] eqn:Htoken; try done.
    + by apply get_resumption_token_inv in Htoken as (_ & ? & _).
    + destruct (_check_params _ [] []) as [[]|] eqn:Hcheck; [|done].
      cbn [bind]. case_bool_decide as Hlen; [done|]. intros [= <-].
      split; [by apply check_params_only_verb|]. split; [done|].
      intros Hnil. by rewrite Hnil in Hlen.
  - intros ((v & Hparams & Hv) & -> & Hne). unfold handle_list_sets.
    assert (_get_resumption_token json_loads m request = Ok None) as ->.
    { unfold _get_resumption_token. by rewrite Hparams. }
    rewrite (proj2 (check_params_only_verb (params request))) by eauto.
    cbn [bind]. rewrite bool_decide_eq_false_2; [done|].
    by destruct (Set_list m).
Qed.

(** X20: on a repository without sets, a ListSets request with the verb as
    its only argument fails with [NoSetHierarchy]. *)
Theorem list_sets_no_hierarchy (json_loads : string → result json)
    (m : models) (request : Request) (v : string) :
  params request = [("verb", v)] →
  util.contains_illegal_chars v = false →
  Set_list m = [] →
  handle_list_sets json_loads m request = raise NoSetHierarchy.
Proof.
  intros Hparams Hv Hsets. unfold handle_list_sets.
  assert (_get_resumption_token json_loads m request = Ok None) as ->.
  { unfold _get_resumption_token. by rewrite Hparams. }
  rewrite (proj2 (check_params_only_verb (params request))) by eauto.
  cbn [bind]. by rewrite Hsets.
Qed.

(** X21: [handle_identify] answers only a request whose sole argument is
    the verb; the earliest datestamp of its answer is that of the store, or
    the time of the request when the store has none. *)
Theorem identify_answer (earliest_datestamp : bool → option datetime)
    (settings : Settings) (request : Request) (context : Identify) :
  handle_identify earliest_datestamp settings request = Ok context →
  (∃ v, params request = [("verb", v)]) ∧
  earliest context =
    match earliest_datestamp (_get_ignore_deleted request) with
    | Some d => d
    | None => time request
    end.
Proof.
  unfold handle_identify.
  destruct (_check_params _ [] []) as [[]|] eqn:Hcheck; [|done].
  cbn [bind]. intros [= <-]. split.
  - apply check_params_only_verb in Hcheck as (v & ? & _). by exists v.
  - cbn [earliest]. by destruct (earliest_datestamp _).
Qed.

(** *** GetRecord and ListMetadataFormats *)

Lemma getitem_multidict_get name items :
  name ∈ items.*1 →
  ∃ v, getitem name (MultiDict items) = Ok (Some v) ∧
       get name (MultiDict items) = Some v.
Proof.
  intros Hin. destruct (getitem_contains name items) as [v Hv].
  { by apply bool_decide_eq_true. }
  exists v. split; [done|]. unfold get. by rewrite Hv.
Qed.

Lemma get_multidict_None name items :
  name ∉ items.*1 → get name (MultiDict items) = None.
Proof.
  intros Hnot. destruct (get name (MultiDict items)) as [v|] eqn:E; [|done].
  by apply get_Some_in_keys in E.
Qed.

Lemma IdDoesNotExist_clean id :
  util.contains_illegal_chars id = false →
  new_IdDoesNotExist (Some id) =
    Ok (IdDoesNotExist
          ("Identifier " +:+ dq +:+ id +:+ dq +:+ " does not exist.")).
Proof.
  intros Hid.
  change (new_IdDoesNotExist (Some id))
    with (Ok (IdDoesNotExist (util.filter_illegal_chars
               ("Identifier " +:+ dq +:+ (id +:+ (dq +:+ " does not exist.")))))).
  rewrite !filter_illegal_chars_app, (filter_illegal_chars_id id) by done.
  reflexivity.
Qed.

(** X22: for valid arguments [handle_get_record] reports an unknown
    identifier first ([IdDoesNotExist]), then an unknown format
    ([UnsupportedMetadataFormat]), then a missing record
    ([UnavailableMetadataFormat]), each message naming its arguments; it
    returns the record when the store lists exactly one, and fails an
    assertion when it lists more. *)
Theorem get_record_answer (m : models) (request : Request) :
  let p := MultiDict (params request) in
  let ignore_deleted := _get_ignore_deleted request in
  _check_params p ["identifier"; "metadataPrefix"] [] = Ok () →
  ∃ id prefix,
    get "identifier" p = Some id ∧
    get "metadataPrefix" p = Some prefix ∧
    handle_get_record m request =
      if negb (Item_exists m (Some id) ignore_deleted) then
        raise (IdDoesNotExist
                 ("Identifier " +:+ dq +:+ id +:+ dq +:+ " does not exist."))
      else if negb (Format_exists m (Some prefix) ignore_deleted) then
        raise (UnsupportedMetadataFormat
                 ("Metadata format " +:+ dq +:+ prefix +:+ dq +:+
                  " is not supported by this repository."))
      else
        match Record_list m
                (record_query (Some id) (Some prefix) ignore_deleted) with
        | [] =>
            raise (UnavailableMetadataFormat
                     ("Metadata format " +:+ dq +:+ prefix +:+ dq +:+
                      " is not available for item " +:+ dq +:+ id +:+ dq +:+
                      "."))
        | [record] => Ok record
        | _ => Raise (Py AssertionError)
        end.
Proof.
  intros p ign Hcheck. subst p. set (p := MultiDict (params request)) in *.
  subst ign. set (ign := _get_ignore_deleted request).
  pose proof (check_params_inv _ _ _ Hcheck) as (_ & _ & Hreq & Hclean & _).
  destruct (getitem_multidict_get "identifier" (params request))
    as (id & Hid & Hid'); [apply Hreq; left|].
  destruct (getitem_multidict_get "metadataPrefix" (params request))
    as (prefix & Hpf & Hpf'); [apply Hreq; right; left|].
  exists id, prefix. split; [done|]. split; [done|].
  pose proof (Hclean _ _ Hid') as Hid_clean.
  pose proof (Hclean _ _ Hpf') as Hpf_clean.
  unfold handle_get_record. fold p ign. rewrite Hcheck. cbn [bind].
  fold p in Hid, Hpf.
  unfold _get_identifier.
  assert (contains "identifier" p = true) as ->
    by (apply contains_iff, Hreq; left).
  cbn [negb]. rewrite Hid. cbn [bind].
  destruct (Item_exists m (Some id) ign); cbn [negb].
  2:{ by rewrite IdDoesNotExist_clean. }
  cbn [bind]. unfold _get_metadata_prefix. rewrite Hpf. cbn [bind].
  destruct (Format_exists m (Some prefix) ign); cbn [negb].
  2:{ change (new_UnsupportedMetadataFormat (Some prefix))
        with (Ok (UnsupportedMetadataFormat (util.filter_illegal_chars
                   ("Metadata format " +:+ dq +:+ (prefix +:+ (dq +:+
                      " is not supported by this repository.")))))).
      rewrite !filter_illegal_chars_app,
        (filter_illegal_chars_id prefix) by done.
      reflexivity. }
  cbn [bind]. fold (record_query (Some id) (Some prefix) ign).
  destruct (Record_list m _) as [|record [|]]; [|done..].
  change (new_UnavailableMetadataFormat (Some prefix) (Some id))
    with (Ok (UnavailableMetadataFormat (util.filter_illegal_chars
               ("Metadata format " +:+ dq +:+ (prefix +:+ (dq +:+
                  " is not available for item " +:+ dq +:+
                  (id +:+ (dq +:+ ".")))))))).
  rewrite !filter_illegal_chars_app, (filter_illegal_chars_id prefix),
    (filter_illegal_chars_id id) by done.
  reflexivity.
Qed.

(** X23: for valid arguments [handle_list_metadata_formats] reports an
    unknown identifier with [IdDoesNotExist], an item without formats with
    [NoMetadataFormats] (its message the bare template), and fails an
    assertion when the repository as a whole has no format; it never returns
    an empty list. *)
Theorem list_metadata_formats_answer (m : models) (request : Request) :
  let p := MultiDict (params request) in
  let ignore_deleted := _get_ignore_deleted request in
  _check_params p [] ["identifier"] = Ok () →
  handle_list_metadata_formats m request =
    match get "identifier" p with
    | Some id =>
        if negb (Item_exists m (Some id) ignore_deleted) then
          raise (IdDoesNotExist
                   ("Identifier " +:+ dq +:+ id +:+ dq +:+ " does not exist."))
        else
          match Format_list m (Some id) ignore_deleted with
          | [] =>
              raise (NoMetadataFormats
                       ("No metadata formats available for item " +:+ dq +:+
                        "%s" +:+ dq +:+ "."))
          | formats => Ok formats
          end
    | None =>
        match Format_list m None ignore_deleted with
        | [] => Raise (Py AssertionError)
        | formats => Ok formats
        end
    end.
Proof.
  intros p ign Hcheck. subst p. set (p := MultiDict (params request)) in *.
  subst ign. set (ign := _get_ignore_deleted request).
  pose proof (check_params_inv _ _ _ Hcheck) as (_ & _ & _ & Hclean & _).
  unfold handle_list_metadata_formats. fold p ign. rewrite Hcheck.
  cbn [bind]. unfold _get_identifier.
  destruct (decide ("identifier" ∈ (params request).*1)) as [Hin|Hnot].
  - destruct (getitem_multidict_get "identifier" (params request) Hin)
      as (id & Hid & Hid'). fold p in Hid, Hid'.
    rewrite (proj2 (contains_iff "identifier" p)) by done.
    cbn [negb]. rewrite Hid, Hid'. cbn [bind].
    destruct (Item_exists m (Some id) ign); cbn [negb].
    2:{ by rewrite IdDoesNotExist_clean by (by apply (Hclean "identifier")). }
    cbn [bind]. rewrite bool_decide_eq_true_2 by done. cbn [andb].
    destruct (Format_list m (Some id) ign) as [|f formats]; [done|].
    by rewrite !bool_decide_eq_false_2 by done.
  - pose proof (get_multidict_None _ _ Hnot) as Hnone. fold p in Hnone.
    rewrite Hnone.
    assert (contains "identifier" p = false) as ->.
    { apply not_true_iff_false. by intros ?%contains_iff. }
    cbn [negb bind]. rewrite bool_decide_eq_false_2 by naive_solver.
    cbn [andb].
    destruct (Format_list m None ign) as [|f formats]; [done|].
    by rewrite bool_decide_eq_false_2 by done.
Qed.

(** *** The order of the parameters *)

Lemma check_params_verdict_parts items required allowed :
  verdict (_check_params (MultiDict items) required allowed) =
  Some (if negb (contains "verb" (MultiDict items)) then FailsMissingVerb
        else if bool_decide (1 < times_given "verb" items)%nat
        then FailsRepeatedVerb
        else if forallb (name_ok (MultiDict items) required allowed)
                  (keys (MultiDict items)) &&
                forallb (λ name, contains name (MultiDict items)) required
        then Succeeds else FailsBadArgument).
Proof.
  unfold _check_params.
  destruct (contains "verb" (MultiDict items)); cbn [negb]; [|done].
  cbn [has_getall andb]. rewrite times_given_length.
  case_bool_decide; [done|].
  pose proof (check_names_verdict (MultiDict items) required allowed
                (keys (MultiDict items))) as Hn.
  pose proof (check_required_verdict (MultiDict items) required) as Hr.
  destruct (check_names_raises (MultiDict items) required allowed
              (keys (MultiDict items))) as [Hc | [msg Hc]];
    rewrite Hc in Hn |- *; cbn [bind].
  - destruct (forallb (name_ok _ required allowed) _); [|done].
    by cbn [andb].
  - by destruct (forallb (name_ok _ required allowed) _).
Qed.

Lemma times_given_perm name items items' :
  items ≡ₚ items' → times_given name items = times_given name items'.
Proof. intros H. unfold times_given. by rewrite H. Qed.

Lemma forallb_perm {A} (f g : A → bool) l l' :
  l ≡ₚ l' → (∀ x, x ∈ l → f x = g x) → forallb f l = forallb g l'.
Proof.
  intros Hperm Hfg. apply eq_true_iff_eq. rewrite !forallb_forall.
  split; intros H x Hx%list_elem_of_In.
  - rewrite <- Hperm in Hx. rewrite <- Hfg by done.
    by apply H, list_elem_of_In.
  - rewrite Hfg by done. apply H, list_elem_of_In. by rewrite <- Hperm.
Qed.

Lemma perm_short {A} (l l' : list A) :
  l ≡ₚ l' → (length l ≤ 1)%nat → l = l'.
Proof.
  intros Hperm Hlen.
  destruct l as [|x [|y l]]; cbn in Hlen; [| |lia].
  - by apply Permutation_nil_l in Hperm.
  - by apply Permutation_singleton_l in Hperm.
Qed.

Lemma name_ok_perm items items' required allowed name :
  items ≡ₚ items' →
  name_ok (MultiDict items) required allowed name =
  name_ok (MultiDict items') required allowed name.
Proof.
  intros Hperm. unfold name_ok. cbn [has_getall andb].
  rewrite !times_given_length, (times_given_perm name items items') by done.
  destruct (bool_decide (1 < times_given name items')%nat) eqn:Hrep;
    cbn [negb]; [by rewrite !andb_false_r|].
  apply bool_decide_eq_false in Hrep.
  assert (getall name (MultiDict items) = getall name (MultiDict items'))
    as Hsame.
  { apply perm_short.
    - unfold getall. by rewrite Hperm.
    - rewrite times_given_length, (times_given_perm name items items') by done.
      lia. }
  unfold get, getitem. by rewrite Hsame.
Qed.

(** X3: the verdict of [_check_params] on a multidict (success, or which
    kind of error) does not depend on the order of the parameters. *)
Theorem check_params_order (items items' : list (string * string))
    (required allowed : list string) :
  items ≡ₚ items' →
  verdict (_check_params (MultiDict items) required allowed) =
  verdict (_check_params (MultiDict items') required allowed).
Proof.
  intros Hperm. rewrite !check_params_verdict_parts.
  rewrite !contains_times_given,
    (times_given_perm "verb" items items') by done.
  rewrite (forallb_perm (name_ok (MultiDict items) required allowed)
             (name_ok (MultiDict items') required allowed)
             (keys (MultiDict items)) (keys (MultiDict items'))).
  - rewrite (forallb_perm (λ name, contains name (MultiDict items))
               (λ name, contains name (MultiDict items')) required required);
      [done|done|].
    intros name _. rewrite !contains_times_given.
    by rewrite (times_given_perm name items items').
  - cbn [keys]. by rewrite Hperm.
  - intros name _. by apply name_ok_perm.
Qed.

Section more_token_facts.

Variable json_dumps : json → string.
Variable json_loads : string → result json.

Lemma get_resumption_token_absent m request :
  "resumptionToken" ∉ (params request).*1 →
  _get_resumption_token json_loads m request = Ok None.
Proof.
  intros Hnot. unfold _get_resumption_token, contains.
  by rewrite bool_decide_eq_false_2.
Qed.

(** X8: a well-formed token whose verb is not the verb of the request is
    refused with [InvalidResumptionToken], before its date is looked at, and
    the ListIdentifiers/ListRecords handler reports the same. *)
Theorem token_for_other_verb_invalid (m : models) (request : Request)
    (value verb : string) (d : list (string * json))
    (decoded : list (string * option string)) :
  only_token request →
  getitem "resumptionToken" (MultiDict (params request)) = Ok (Some value) →
  getitem "verb" (MultiDict (params request)) = Ok (Some verb) →
  json_loads value = Ok (JObject d) →
  check_types d = Ok decoded →
  dict_lookup "verb" decoded ≠ Some (Some verb) →
  _get_resumption_token json_loads m request = raise InvalidResumptionToken ∧
  handle_list_items json_dumps json_loads m request =
    raise InvalidResumptionToken.
Proof.
  intros [Hin Hcheck] Hvalue Hverb Hloads Htypes Hother.
  assert (_get_resumption_token json_loads m request =
          raise InvalidResumptionToken) as Hget.
  { unfold _get_resumption_token.
    rewrite Hin, Hcheck, Hvalue. cbn [negb bind py_str].
    rewrite Hloads. cbn [except_all bind]. rewrite Htypes, Hverb.
    cbn [bind]. rewrite bool_decide_eq_false_2; [done|].
    intros H. apply Hother.
    by destruct (dict_lookup "verb" decoded) as [[?|]|]; simplify_eq/=. }
  split; [done|]. unfold handle_list_items. by rewrite Hget.
Qed.

(** X15: a valid ListIdentifiers/ListRecords request without a token for a
    format the repository does not have fails with
    [UnsupportedMetadataFormat], whose message names the prefix. *)
Theorem list_items_unsupported_format (m : models) (request : Request)
    (prefix : string) :
  "resumptionToken" ∉ (params request).*1 →
  _check_params (MultiDict (params request)) ["metadataPrefix"]
    ["from"; "until"; "set"] = Ok () →
  get "metadataPrefix" (MultiDict (params request)) = Some prefix →
  Format_exists m (Some prefix) (_get_ignore_deleted request) = false →
  handle_list_items json_dumps json_loads m request =
    raise (UnsupportedMetadataFormat
             ("Metadata format " +:+ dq +:+ prefix +:+ dq +:+
              " is not supported by this repository.")).
Proof.
  intros Hnot Hcheck Hprefix Hformat.
  pose proof (check_params_inv _ _ _ Hcheck) as (_ & _ & Hreq & Hclean & _).
  destruct (getitem_multidict_get "metadataPrefix" (params request))
    as (prefix' & Hitem & Hget); [apply Hreq; left|].
  rewrite Hprefix in Hget. injection Hget as <-.
  unfold handle_list_items.
  rewrite get_resumption_token_absent by done.
  cbn [bind]. rewrite bool_decide_eq_false_2 by naive_solver.
  rewrite Hcheck. cbn [bind].
  unfold _get_records, _get_metadata_prefix. rewrite Hitem. cbn [bind].
  rewrite Hformat. cbn [negb].
  change (new_UnsupportedMetadataFormat (Some prefix))
    with (Ok (UnsupportedMetadataFormat (util.filter_illegal_chars
               ("Metadata format " +:+ dq +:+ (prefix +:+ (dq +:+
                  " is not supported by this repository.")))))).
  rewrite !filter_illegal_chars_app,
    (filter_illegal_chars_id prefix) by (by apply (Hclean "metadataPrefix")).
  reflexivity.
Qed.

(** X16: a valid ListIdentifiers/ListRecords request without a token that
    names a set, on a repository without sets, fails with
    [NoSetHierarchy]. *)
Theorem list_items_set_without_hierarchy (m : models) (request : Request)
    (prefix : option string) (dates : option datetime * option datetime)
    (set : string) :
  let p := MultiDict (params request) in
  "resumptionToken" ∉ (params request).*1 →
  _check_params p ["metadataPrefix"] ["from"; "until"; "set"] = Ok () →
  _get_metadata_prefix m p (_get_ignore_deleted request) = Ok prefix →
  _parse_from_and_until (get "from" p) (get "until" p) = Ok dates →
  get "set" p = Some set →
  Set_list m = [] →
  handle_list_items json_dumps json_loads m request = raise NoSetHierarchy.
Proof.
  intros p Hnot Hcheck Hprefix Hdates Hset Hsets.
  unfold handle_list_items.
  rewrite get_resumption_token_absent by done.
  cbn [bind]. rewrite bool_decide_eq_false_2 by naive_solver.
  fold p. rewrite Hcheck. cbn [bind].
  unfold _get_records. rewrite Hprefix, Hdates. cbn [bind].
  rewrite Hset, Hsets. reflexivity.
Qed.

End more_token_facts.

(** ** More of the views, on the small repository *)

Lemma check_params_accepts_witness :
  _check_params (MultiDict (params list_records)) ["metadataPrefix"]
    ["from"; "until"; "set"] = Ok () ∧
  ∀ name, name ∈ ["metadataPrefix"] →
          name ∈ keys (MultiDict (params list_records)).
Proof.
  split; [reflexivity|].
  exact (proj1 (proj2 (proj2
           (check_params_accepts (MultiDict (params list_records))
              ["metadataPrefix"] ["from"; "until"; "set"] eq_refl)))).
Defined.

Lemma check_params_order_witness :
  [("metadataPrefix", "oai_dc"); ("verb", "ListRecords")] ≡ₚ
    params list_records ∧
  verdict (_check_params
             (MultiDict [("metadataPrefix", "oai_dc"); ("verb", "ListRecords")])
             ["metadataPrefix"] []) =
  verdict (_check_params (MultiDict (params list_records))
             ["metadataPrefix"] []).
Proof.
  assert ([("metadataPrefix", "oai_dc"); ("verb", "ListRecords")] ≡ₚ
            params list_records) as Hperm by apply Permutation_swap.
  split; [exact Hperm|].
  exact (check_params_order _ _ ["metadataPrefix"] [] Hperm).
Defined.

Lemma get_resumption_token_sound_witness :
  _get_resumption_token pyjson.loads store resume_last =
    Ok (Some last_token) ∧
  last_token ≠ [].
Proof.
  split; [reflexivity|].
  exact (proj1 (proj2
           (get_resumption_token_sound pyjson.loads store resume_last
              last_token eq_refl))).
Defined.

Lemma token_with_other_argument_witness :
  times_given "verb" (params requests.token_and_set) = 1%nat ∧
  ∃ msg,
    _get_resumption_token pyjson.loads store requests.token_and_set =
      raise (BadArgument msg) ∧
    handle_list_items pyjson.dumps pyjson.loads store requests.token_and_set =
      raise (BadArgument msg).
Proof.
  split; [reflexivity|].
  apply (token_with_other_argument pyjson.dumps pyjson.loads store
           requests.token_and_set "set").
  - reflexivity.
  - apply (bool_decide_unpack _). reflexivity.
  - apply (bool_decide_unpack _). reflexivity.
  - discriminate.
  - discriminate.
Defined.

Lemma token_for_other_verb_invalid_witness :
  only_token requests.resume_other_verb ∧
  _get_resumption_token pyjson.loads store requests.resume_other_verb =
    raise InvalidResumptionToken ∧
  handle_list_items pyjson.dumps pyjson.loads store
    requests.resume_other_verb = raise InvalidResumptionToken.
Proof.
  assert (only_token requests.resume_other_verb) as Honly
    by (split; reflexivity).
  split; [exact Honly|].
  apply (token_for_other_verb_invalid pyjson.dumps pyjson.loads store
           requests.resume_other_verb
           (pyjson.dumps (json_of_dict stale_token)) "ListRecords"
           (flat stale_token) stale_token Honly);
    try reflexivity.
  discriminate.
Defined.

Lemma parse_from_and_until_range_witness :
  _parse_from_and_until (Some "2014-01-01") (Some "2014-01-02") =
    Ok (Some (mk_datetime 2014 1 1 0 0 0),
        Some (mk_datetime 2014 1 2 23 59 59)) ∧
  datetime_gtb (mk_datetime 2014 1 1 0 0 0) (mk_datetime 2014 1 2 23 59 59) =
    false.
Proof.
  split; [reflexivity|].
  exact (proj2 (proj2
           (parse_from_and_until_range (Some "2014-01-01")
              (Some "2014-01-02") _ _ eq_refl)) _ _ eq_refl eq_refl).
Defined.

Lemma parse_from_and_until_same_witness :
  util.parse_date "2014-01-01" util.midnight =
    Ok (mk_datetime 2014 1 1 0 0 0, DayGranularity) ∧
  _parse_from_and_until (Some "2014-01-01") (Some "2014-01-01") =
    Ok (Some (mk_datetime 2014 1 1 0 0 0),
        Some (mk_datetime 2014 1 1 23 59 59)).
Proof.
  split; [reflexivity|].
  exact (parse_from_and_until_same "2014-01-01" (mk_datetime 2014 1 1 0 0 0)
           DayGranularity eq_refl).
Defined.

Lemma list_items_page_size_witness :
  (∀ q, q_limit q = Some (item_list_limit list_records + 1)%Z →
        (Z.of_nat (length (Record_list store q)) ≤
         item_list_limit list_records + 1)%Z) ∧
  ∃ response,
    handle_list_items pyjson.dumps pyjson.loads store list_records =
      Ok response ∧
    (Z.of_nat (length (records response)) ≤ item_list_limit list_records)%Z.
Proof.
  assert (∀ q, q_limit q = Some (item_list_limit list_records + 1)%Z →
               (Z.of_nat (length (Record_list store q)) ≤
                item_list_limit list_records + 1)%Z) as Hstore.
  { intros q Hq. cbn [Record_list store]. rewrite Hq, length_take.
    cbn [item_list_limit list_records request_of]. lia. }
  split; [exact Hstore|].
  eexists. split; [reflexivity|].
  exact (proj1 (list_items_page_size pyjson.dumps pyjson.loads store
                  list_records _ Hstore eq_refl)).
Defined.

Lemma list_items_starts_without_offset_witness :
  validated pyjson.loads store list_records None (Some "oai_dc") (None, None) ∧
  q_offset (list_query list_records (effective_params None list_records)
              (Some "oai_dc") (None, None)) = None.
Proof.
  assert (validated pyjson.loads store list_records None (Some "oai_dc")
            (None, None)) as Hvalid.
  { repeat split; try reflexivity. by left. }
  split; [exact Hvalid|].
  exact (list_items_starts_without_offset pyjson.loads store list_records
           (Some "oai_dc") (None, None) Hvalid).
Defined.

Lemma list_items_token_errors_witness :
  _get_resumption_token pyjson.loads store resume_late =
    Ok (Some late_token) ∧
  ((∃ response,
      handle_list_items pyjson.dumps pyjson.loads store resume_late =
        Ok response ∧
      token response ≠ None) ∨
   handle_list_items pyjson.dumps pyjson.loads store resume_late =
     raise InvalidResumptionToken).
Proof.
  split; [reflexivity|].
  exact (list_items_token_errors pyjson.dumps pyjson.loads store resume_late
           late_token eq_refl).
Defined.

Lemma resumed_listing_continues_witness :
  validated pyjson.loads store list_records None (Some "oai_dc") (None, None) ∧
  handle_list_items pyjson.dumps pyjson.loads store list_records =
    Ok {| records := [item "item1"; item "item2"];
          token :=
            Some (pyjson.dumps (json_of_dict requests.issued_fields)) |} ∧
  validated pyjson.loads store requests.resume_issued
    (Some requests.issued_fields) (Some "oai_dc") (None, None) ∧
  q_offset (list_query requests.resume_issued
              (effective_params (Some requests.issued_fields)
                 requests.resume_issued)
              (Some "oai_dc") (None, None)) = Some "item3".
Proof.
  assert (validated pyjson.loads store list_records None (Some "oai_dc")
            (None, None)) as Hvalid.
  { repeat split; try reflexivity. by left. }
  split; [exact Hvalid|].
  destruct (resumed_listing_continues pyjson.dumps pyjson.loads store
              list_records None (Some "oai_dc") (None, None) "ListRecords"
              (item "item3") requests.resume_issued Hvalid eq_refl eq_refl
              eq_refl eq_refl eq_refl)
    as (Hfirst & Hsecond & Hquery);
    [|reflexivity|reflexivity|apply dumps_clean|..].
  { intros latest [= <-]. reflexivity. }
  { apply loads_dumps. apply (bool_decide_unpack _). reflexivity. }
  split; [exact Hfirst|]. split; [exact Hsecond|].
  exact (f_equal q_offset Hquery).
Defined.

Lemma list_items_unsupported_format_witness :
  Format_exists store (Some "ead")
    (_get_ignore_deleted requests.list_records_ead) = false ∧
  handle_list_items pyjson.dumps pyjson.loads store
    requests.list_records_ead =
    raise (UnsupportedMetadataFormat
             ("Metadata format " +:+ dq +:+ "ead" +:+ dq +:+
              " is not supported by this repository.")).
Proof.
  split; [reflexivity|].
  apply (list_items_unsupported_format pyjson.dumps pyjson.loads store
           requests.list_records_ead "ead"); try reflexivity.
  apply (bool_decide_unpack _). reflexivity.
Defined.

Lemma list_items_set_without_hierarchy_witness :
  get "set" (MultiDict (params requests.list_records_set)) = Some "a" ∧
  Set_list store = [] ∧
  handle_list_items pyjson.dumps pyjson.loads store
    requests.list_records_set = raise NoSetHierarchy.
Proof.
  split; [reflexivity|]. split; [reflexivity|].
  apply (list_items_set_without_hierarchy pyjson.dumps pyjson.loads store
           requests.list_records_set (Some "oai_dc") (None, None) "a");
    try reflexivity.
  apply (bool_decide_unpack _). reflexivity.
Defined.

Lemma list_sets_no_hierarchy_witness :
  params requests.list_sets = [("verb", "ListSets")] ∧
  Set_list store = [] ∧
  handle_list_sets pyjson.loads store requests.list_sets =
    raise NoSetHierarchy.
Proof.
  split; [reflexivity|]. split; [reflexivity|].
  exact (list_sets_no_hierarchy pyjson.loads store requests.list_sets
           "ListSets" eq_refl eq_refl eq_refl).
Defined.

Lemma identify_answer_witness :
  ∃ context,
    handle_identify (λ _, None) requests.settings requests.identify =
      Ok context ∧
    earliest context = now.
Proof.
  eexists. split; [reflexivity|].
  exact (proj2 (identify_answer (λ _, None) requests.settings
                  requests.identify _ eq_refl)).
Defined.

Lemma get_record_answer_witness :
  _check_params (MultiDict (params requests.get_record))
    ["identifier"; "metadataPrefix"] [] = Ok () ∧
  handle_get_record store requests.get_record = Ok (item "item1").
Proof.
  split; [reflexivity|].
  destruct (get_record_answer store requests.get_record eq_refl)
    as (id & prefix & Hid & Hprefix & Hanswer).
  injection Hid as <-. injection Hprefix as <-. exact Hanswer.
Defined.

Lemma list_metadata_formats_answer_witness :
  _check_params (MultiDict (params requests.list_formats)) []
    ["identifier"] = Ok () ∧
  handle_list_metadata_formats store requests.list_formats = Ok [oai_dc].
Proof.
  split; [reflexivity|].
  exact (list_metadata_formats_answer store requests.list_formats eq_refl).
Defined.
